(** * Hybrid Stylesheets (hss): the nested-context scanner of [src/hss.js]

    A shallow embedding of the [Reader], [Context] and [Transpiler] classes
    of [src/hss.js], followed by the properties of the transpiler that the
    specification states.

    Modelling conventions.
    - A JavaScript string is a Rocq [string]; its characters are the code
      units 0..255, so the whitespace class of the source ([/\s+/] and
      [String.prototype.trim]) is the set 9..13, 32 and 160.
    - The object graph of contexts is a value: a context holds its parent
      ([parentContext]); the [childContext] pointer of the parent is the
      context that is current, so it is passed instead of stored.
    - A [throw] is the [Throw] outcome of a small error monad.
    - The value [undefined] that [next()] returns on an empty input only
      ever reaches a string concatenation, where JavaScript renders it as
      the text [undefined]. *)

From Stdlib Require Import String Ascii List Bool Arith Lia DecimalString.
Import ListNotations.
Open Scope string_scope.

(** ** Characters *)

Definition newline : ascii := "010"%char.
Definition dquote : ascii := "034"%char.
Definition squote : ascii := "'"%char.
Definition backtick : ascii := "`"%char.
Definition backslash : ascii := "\"%char.

(** [quoteRegex]: a single quote, a double quote or a backtick. *)
Definition quoteRegex (c : ascii) : bool :=
  ((c =? squote) || (c =? dquote) || (c =? backtick))%char.

(** [const whitespaceRegex = /\s+/], tested on one character. *)
Definition whitespaceRegex (c : ascii) : bool :=
  let n := nat_of_ascii c in
  (((9 <=? n) && (n <=? 13)) || (n =? 32) || (n =? 160))%nat.

(** ** JavaScript string primitives used by the source *)

(** How a value that may be [undefined] is rendered by [+=] on a string. *)
Definition js_str (o : option ascii) : string :=
  match o with
  | Some c => String c ""
  | None => "undefined"
  end.

(** [a + b] where both operands come from [next()]: two strings are
    concatenated, a string and [undefined] concatenate with the text
    [undefined], and [undefined + undefined] is the number NaN. *)
Definition js_plus (a b : option ascii) : string :=
  match a, b with
  | None, None => "NaN"
  | _, _ => js_str a ++ js_str b
  end.

(** Decimal rendering of a line number. *)
Definition string_of_nat (n : nat) : string :=
  NilZero.string_of_uint (Nat.to_uint n).

(** [s.slice(0, n)]: the first [n] characters, or all of [s]. *)
Fixpoint slice0 (n : nat) (s : string) : string :=
  match n, s with
  | S n', String c rest => String c (slice0 n' rest)
  | _, _ => ""
  end.

(** [s.slice(1, -1)]. *)
Definition slice_1_m1 (s : string) : string :=
  substring 1 (String.length s - 2) s.

(** [s.slice(-1)]: the last character, or the empty string. *)
Fixpoint slice_m1 (s : string) : string :=
  match s with
  | "" => ""
  | String c "" => s
  | String _ rest => slice_m1 rest
  end.

(** [s.replace(/c/g, by)] for a one-character pattern. *)
Fixpoint replaceAll (c : ascii) (by_ : string) (s : string) : string :=
  match s with
  | "" => ""
  | String d rest =>
      (if (d =? c)%char then by_ else String d "") ++ replaceAll c by_ rest
  end.

Fixpoint trimStart (s : string) : string :=
  match s with
  | "" => ""
  | String c rest => if whitespaceRegex c then trimStart rest else s
  end.

Fixpoint trimEnd (s : string) : string :=
  match s with
  | "" => ""
  | String c rest =>
      match trimEnd rest with
      | "" => if whitespaceRegex c then "" else String c ""
      | t => String c t
      end
  end.

(** [s.trim()]. *)
Definition trim (s : string) : string := trimEnd (trimStart s).

(** ** Outcomes *)

(** What a call can throw.  [FuelExhausted] is not a JavaScript exception:
    it is the outcome of the driver loop of the model when its iteration
    bound is used up, and [transpile_total] shows that it never occurs. *)
Inductive Exn : Type :=
| SyntaxError (message : string)
| TypeError
| FuelExhausted.

Inductive result (A : Type) : Type :=
| Ok (a : A)
| Throw (e : Exn).
Arguments Ok {A} a.
Arguments Throw {A} e.

Definition bind {A B : Type} (m : result A) (k : A -> result B) : result B :=
  match m with
  | Ok a => k a
  | Throw e => Throw e
  end.

Notation "x <- m ;; k" := (bind m (fun x => k))
  (at level 61, m at next level, right associativity).

(** ** Data model *)

Module Token.
(** [const COMMENT = 'COMMENT'], [STRING], [WHITESPACE]. *)
Inductive type : Type := COMMENT | STRING | WHITESPACE.
End Token.

(** The concrete classes of the [Context] hierarchy. *)
Inductive ContextClass : Type := RootContext | HssContext | JsContext.

(** An instance of [Context].  [ignoreCount] exists on a [JsContext] only
    and stays 0 elsewhere. *)
#[warnings="-register-all"]
Inductive Context : Type := mkContext {
  kind : ContextClass;
  parentContext : option Context;
  content : string;
  startingLine : nat;
  ignoreCount : nat
}.

(** The fields of [Reader] ([Transpiler] adds none). *)
Record Reader : Type := mkReader {
  filename : string;
  input : string;
  line : nat;
  context : Context
}.

Definition set_content (c : Context) (s : string) : Context :=
  mkContext (kind c) (parentContext c) s (startingLine c) (ignoreCount c).

Definition set_ignoreCount (c : Context) (n : nat) : Context :=
  mkContext (kind c) (parentContext c) (content c) (startingLine c) n.

Definition set_context (r : Reader) (c : Context) : Reader :=
  mkReader (filename r) (input r) (line r) c.

Definition set_cursor (r : Reader) (inp : string) (ln : nat) : Reader :=
  mkReader (filename r) inp ln (context r).

(** ** class Reader: the character source *)

Module Reader.

(** The exception of [error(msg)] for a file name and a current line. *)
Definition errorAt (fname : string) (ln : nat) (msg : string) : Exn :=
  SyntaxError ("Hss Error in " ++ fname ++ " on line "
               ++ string_of_nat ln ++ String newline msg).

(** [error(msg)]: the exception that is thrown. *)
Definition error (r : Reader) (msg : string) : Exn :=
  errorAt (filename r) (line r) msg.

(** The line counter after [c] has been consumed. *)
Definition bump (c : ascii) (ln : nat) : nat :=
  if (c =? newline)%char then S ln else ln.

(** [next()]. *)
Definition next (r : Reader) : option ascii * Reader :=
  match input r with
  | "" => (None, r)
  | String c rest => (Some c, set_cursor r rest (bump c (line r)))
  end.

(** [peek()] without an argument. *)
Definition peek (r : Reader) : option ascii :=
  match input r with
  | "" => None
  | String c _ => Some c
  end.

(** [peek(length)] with a positive [length]. *)
Definition peekN (n : nat) (r : Reader) : string := slice0 n (input r).

(** [next()] called [n] times, results discarded. *)
Fixpoint discard (n : nat) (r : Reader) : Reader :=
  match n with
  | 0 => r
  | S n' => discard n' (snd (next r))
  end.

End Reader.

(** ** class Context and its subclasses *)

Module Ctx.

(** [JsContext.beforeAdd]. *)
Definition beforeAdd (c : Context) (str : string) : Context :=
  if str =? "[" then set_ignoreCount c (S (ignoreCount c)) else c.

(** [Context.add(str)] past its first line: the call without a type, or
    with a type the class has no handler for. *)
Definition append (c : Context) (str : string) : Context :=
  let c' := match kind c with
            | JsContext => beforeAdd c str
            | _ => c
            end in
  set_content c' (content c' ++ str).

(** [ChildContext.WHITESPACE]. *)
Definition ChildContext_WHITESPACE (c : Context) : Context :=
  if slice_m1 (content c) =? " " then c else append c " ".

(** [HssContext.STRING]. *)
Definition HssContext_STRING (c : Context) (str : string) : Context :=
  match str with
  | String q _ =>
      if (q =? squote)%char then
        let str1 := slice_1_m1 str in
        let str2 := replaceAll squote "\\\'" str1 in
        let str3 := "\'" ++ str2 ++ "\'" in
        append c str3
      else append c str
  | "" => append c str
  end.

(** [Context.add(str, type)]: a handler named after the type, when the
    class has one, replaces the plain append. *)
Definition add (c : Context) (str : string) (type : option Token.type)
  : Context :=
  match type, kind c with
  | Some Token.COMMENT, (HssContext | JsContext) => c
  | Some Token.WHITESPACE, (HssContext | JsContext) =>
      ChildContext_WHITESPACE c
  | Some Token.STRING, HssContext => HssContext_STRING c str
  | _, _ => append c str
  end.

(** [toString()]. *)
Definition toString (c : Context) : string :=
  match kind c with
  | RootContext => content c
  | HssContext => "'" ++ trim (content c) ++ "'"
  | JsContext => "' + sheath.css.jsExpr(" ++ content c ++ ") + '"
  end.

(** [get endDelimiter()]. *)
Definition endDelimiter (c : Context) : string :=
  match kind c with
  | RootContext => ""
  | HssContext => ">>"
  | JsContext => "]"
  end.

(** [get name()]. *)
Definition name (c : Context) : string :=
  match kind c with
  | RootContext => ""
  | HssContext => "Hss expression"
  | JsContext => "JavaScript expression"
  end.

(** [saveChildContent(content)]. *)
Definition saveChildContent (c : Context) (childContent : string)
  : Context :=
  match kind c with
  | RootContext => add c ("sheath.css.evaluate(" ++ childContent ++ ")") None
  | _ => add c childContent None
  end.

(** [childContextEnd()], with the child that is closing. *)
Definition childContextEnd (parent child : Context) : Context :=
  saveChildContent parent (toString child).

(** [newChildContext()]: the class of the child is chosen by the class
    of the parent; the constructor snapshots the current line. *)
Definition newChildContext (r : Reader) : Context :=
  let c := context r in
  let k := match kind c with
           | RootContext => HssContext
           | HssContext => JsContext
           | JsContext => HssContext
           end in
  mkContext k (Some c) "" (line r) 0.

(** [childContextStart()] of the current context. *)
Definition childContextStart (r : Reader) : bool * Reader :=
  match kind (context r) with
  | HssContext =>
      match Reader.peek r with
      | Some c => if (c =? "[")%char then (true, Reader.discard 1 r)
                  else (false, r)
      | None => (false, r)
      end
  | _ =>
      if Reader.peekN 2 r =? "<<" then (true, Reader.discard 2 r)
      else (false, r)
  end.

(** [contextEnd()] of the current context. *)
Definition contextEnd (r : Reader) : bool * Reader :=
  let c := context r in
  match kind c with
  | RootContext => (false, r)
  | HssContext =>
      if Reader.peekN 2 r =? endDelimiter c
      then (true, Reader.discard (String.length (endDelimiter c)) r)
      else (false, r)
  | JsContext =>
      if js_str (Reader.peek r) =? endDelimiter c then
        if negb (ignoreCount c =? 0)%nat then
          let (o, r1) := Reader.next r in
          let c1 := add c (js_str o) None in
          (false, set_context r1 (set_ignoreCount c1 (ignoreCount c1 - 1)))
        else (true, Reader.discard (String.length (endDelimiter c)) r)
      else (false, r)
  end.

End Ctx.

(** ** class Reader: the lexical scanner *)

Module Scan.

(** The [while] loop of [lineComment]: characters up to, and without,
    the next newline.  No newline is consumed, so the line is unchanged. *)
Fixpoint lineComment_loop (inp acc : string) : string * string :=
  match inp with
  | "" => (acc, "")
  | String c rest =>
      if (c =? newline)%char then (acc, inp)
      else lineComment_loop rest (acc ++ String c "")
  end.

(** [lineComment()]. *)
Definition lineComment (r : Reader) : Reader :=
  let (str, rest) := lineComment_loop (input r) "" in
  set_context (set_cursor r rest (line r))
              (Ctx.add (context r) str (Some Token.COMMENT)).

(** The [while] loop of [blockComment]: it stops in front of the first
    [*/], or at the end of the input. *)
Fixpoint blockComment_loop (inp acc : string) (ln : nat)
  : string * string * nat :=
  match inp with
  | "" => (acc, "", ln)
  | String c rest =>
      if slice0 2 inp =? "*/" then (acc, inp, ln)
      else blockComment_loop rest (acc ++ String c "") (Reader.bump c ln)
  end.

(** [blockComment()]. *)
Definition blockComment (r : Reader) : Reader :=
  let (o1, r1) := Reader.next r in
  let (o2, r2) := Reader.next r1 in
  let '(str, rest, ln) :=
    blockComment_loop (input r2) (js_plus o1 o2) (line r2) in
  let r3 := set_cursor r2 rest ln in
  let (o3, r4) := Reader.next r3 in
  let (o4, r5) := Reader.next r4 in
  set_context r5
    (Ctx.add (context r5) (str ++ js_plus o3 o4) (Some Token.COMMENT)).

(** [COMMENT()]: a line comment, a block comment, or the lone [/]. *)
Definition COMMENT (r : Reader) : Reader :=
  let nxt := Reader.peekN 2 r in
  if nxt =? "//" then lineComment r
  else if nxt =? "/*" then blockComment r
  else
    let (o, r1) := Reader.next r in
    set_context r1 (Ctx.add (context r1) (js_str o) None).

(** The [while] loop of [STRING], followed by the end-of-file check and
    the closing quote.  [fname] is the file name the two errors cite. *)
Fixpoint STRING_loop (fname : string) (type : ascii)
         (inp str : string) (ln : nat) : result (string * string * nat) :=
  match inp with
  | "" =>
      Throw (Reader.errorAt fname ln "Unexpected end of file")
  | String c rest =>
      if (c =? type)%char then
        Ok (str ++ String c "", rest, Reader.bump c ln)
      else if (c =? backslash)%char then
        match rest with
        | "" => STRING_loop fname type rest (str ++ js_str None) ln
        | String d rest' =>
            STRING_loop fname type rest' (str ++ String d "")
                        (Reader.bump d ln)
        end
      else if (c =? newline)%char then
        if negb (type =? backtick)%char then
          Throw (Reader.errorAt fname ln "Unexpected multi-line string")
        else STRING_loop fname type rest (str ++ String c "") (S ln)
      else STRING_loop fname type rest (str ++ String c "") ln
  end.

(** The token that [STRING()] reads, with the input and line after it.
    On an empty input (where the driver never calls it) the delimiter is
    [undefined], no check fails, and the token is [undefined + undefined]. *)
Definition readString (r : Reader) : result (string * string * nat) :=
  match Reader.next r with
  | (Some type, r1) =>
      STRING_loop (filename r) type (input r1) (String type "") (line r1)
  | (None, r1) => Ok (js_plus None None, input r1, line r1)
  end.

(** [STRING()]. *)
Definition STRING (r : Reader) : result Reader :=
  match readString r with
  | Ok (str, rest, ln) =>
      Ok (set_context (set_cursor r rest ln)
                      (Ctx.add (context r) str (Some Token.STRING)))
  | Throw e => Throw e
  end.

(** [WHITESPACE()]. *)
Definition WHITESPACE (r : Reader) : Reader :=
  let (o, r1) := Reader.next r in
  set_context r1 (Ctx.add (context r1) (js_str o) (Some Token.WHITESPACE)).

End Scan.

(** ** class Transpiler: the driver *)

Module Transpiler.

(** [newContext()]. *)
Definition newContext (r : Reader) : Reader :=
  set_context r (Ctx.newChildContext r).

(** [endContext()]: reading [parentContext] of a context without a
    parent, then calling a method on it, is a [TypeError]. *)
Definition endContext (r : Reader) : result Reader :=
  match parentContext (context r) with
  | Some p => Ok (set_context r (Ctx.childContextEnd p (context r)))
  | None => Throw TypeError
  end.

(** The body of the [while] loop of [transpile()]. *)
Definition step (r : Reader) : result Reader :=
  match Reader.peek r with
  | None => Ok r
  | Some nxt =>
      if quoteRegex nxt then Scan.STRING r
      else if (nxt =? "/")%char then Ok (Scan.COMMENT r)
      else if whitespaceRegex nxt then Ok (Scan.WHITESPACE r)
      else
        let (started, r1) := Ctx.childContextStart r in
        if started then Ok (newContext r1)
        else
          let (ended, r2) := Ctx.contextEnd r1 in
          if ended then endContext r2
          else
            let (o, r3) := Reader.next r2 in
            Ok (set_context r3 (Ctx.add (context r3) (js_str o) None))
  end.

(** The [while (next = this.peek())] loop, bounded by [fuel] rounds. *)
Fixpoint loop (fuel : nat) (r : Reader) : result Reader :=
  match Reader.peek r with
  | None => Ok r
  | Some _ =>
      match fuel with
      | 0 => Throw FuelExhausted
      | S fuel' => r' <- step r ;; loop fuel' r'
      end
  end.

(** The loop with as many rounds as there are characters left: every
    round consumes at least one. *)
Definition run (r : Reader) : result Reader :=
  loop (String.length (input r)) r.

(** The check after the loop of [transpile()], and its result. *)
Definition finish (r : Reader) : result string :=
  let c := context r in
  match kind c with
  | RootContext => Ok (Ctx.toString c)
  | _ =>
      Throw (Reader.error r
        ("Unexpected end of file. It looks like you forgot the closing "
         ++ String dquote (Ctx.endDelimiter c) ++ String dquote " of the "
         ++ Ctx.name c ++ " beginning on line "
         ++ string_of_nat (startingLine c) ++ "."))
  end.

(** [new Transpiler(filename, input)]: line 1 and a fresh root context. *)
Definition create (fname inp : string) : Reader :=
  mkReader fname inp 1 (mkContext RootContext None "" 1 0).

(** [new Transpiler(filename, input).transpile()]. *)
Definition transpile (fname inp : string) : result string :=
  r <- run (create fname inp) ;; finish r.

End Transpiler.

(** ** Vocabulary of the statements *)

(** Every character of [s] satisfies [p]. *)
Fixpoint all (p : ascii -> bool) (s : string) : bool :=
  match s with
  | "" => true
  | String c rest => p c && all p rest
  end.

(** [pat] starts [s], tested as the source tests a delimiter against
    [peek(pat.length)]. *)
Definition startsWith (pat s : string) : bool :=
  slice0 (String.length pat) s =? pat.

(** [pat] occurs somewhere in [s]. *)
Fixpoint occurs (pat s : string) : bool :=
  match s with
  | "" => startsWith pat ""
  | String _ rest => startsWith pat s || occurs pat rest
  end.

(** The number of positions of [s] at which [pat] starts. *)
Fixpoint countOccurrences (pat s : string) : nat :=
  match s with
  | "" => 0
  | String _ rest =>
      (if startsWith pat s then 1 else 0) + countOccurrences pat rest
  end.

(** A character no rule of the driver reacts to in any context: neither a
    quote, a slash or whitespace, nor a character of a delimiter. *)
Definition plainChar (c : ascii) : bool :=
  (negb (quoteRegex c) && negb (c =? "/") && negb (whitespaceRegex c)
   && negb (c =? "<") && negb (c =? ">")
   && negb (c =? "[") && negb (c =? "]"))%char.

Definition plain (s : string) : bool := all plainChar s.

(** A character that may stand unescaped inside a string delimited by [q]. *)
Definition bodyChar (q c : ascii) : bool :=
  (negb (c =? q) && negb (c =? backslash)
   && (negb (c =? newline) || (q =? backtick)))%char.

(** As [bodyChar], and not a newline even between backticks. *)
Definition lineChar (q c : ascii) : bool :=
  (negb (c =? q) && negb (c =? backslash) && negb (c =? newline))%char.

(** [n] line breaks. *)
Fixpoint newlines (n : nat) : string :=
  match n with
  | 0 => ""
  | S n' => String newline (newlines n')
  end.

(** The number of line breaks in [s]. *)
Fixpoint countNewlines (s : string) : nat :=
  match s with
  | "" => 0
  | String c rest => Reader.bump c (countNewlines rest)
  end.

(** The text of a string literal as [STRING()] keeps it: every backslash
    is dropped and the character after it is kept as it is. *)
Fixpoint dropEscapes (s : string) : string :=
  match s with
  | "" => ""
  | String c rest =>
      if (c =? backslash)%char then
        match rest with
        | "" => ""
        | String d rest' => String d (dropEscapes rest')
        end
      else String c (dropEscapes rest)
  end.

(** Root-level text without an embedded region whose lexemes the scanner
    leaves as they are: characters that do not start [<<], a [/] that
    starts no comment, string literals that are closed and hold no
    backslash (and no line break unless between backticks), line comments,
    and block comments that are closed. *)
Inductive RootText : string -> Prop :=
| RT_end : RootText ""
| RT_char (c : ascii) (rest : string) :
    quoteRegex c = false -> (c =? "/")%char = false ->
    startsWith "<<" (String c rest) = false ->
    RootText rest -> RootText (String c rest)
| RT_slash (rest : string) :
    startsWith "//" (String "/" rest) = false ->
    startsWith "/*" (String "/" rest) = false ->
    RootText rest -> RootText (String "/" rest)
| RT_string (q : ascii) (body rest : string) :
    quoteRegex q = true -> all (bodyChar q) body = true ->
    RootText rest -> RootText (String q (body ++ String q rest))
| RT_lineComment (body rest : string) :
    all (fun c => negb (c =? newline)%char) body = true ->
    all (fun c => (c =? newline)%char) (slice0 1 rest) = true ->
    RootText rest -> RootText ("//" ++ body ++ rest)
| RT_blockComment (body rest : string) :
    occurs "*/" body = false ->
    RootText rest -> RootText ("/*" ++ body ++ "*/" ++ rest).

(** ** Vocabulary of the invariants *)

(** From [r] to [r'] the cursor has moved over [consumed], the line
    counter has grown by the line breaks in it, and the file name is the
    same. *)
Definition Advances (r r' : Reader) : Prop :=
  filename r' = filename r /\
  exists consumed,
    input r = consumed ++ input r' /\
    line r' = line r + countNewlines consumed.

(** The chain of contexts is the one the constructors build: a root at
    the bottom without a parent, a stylesheet region in the root or in a
    host expression, a host expression in a stylesheet region. *)
Inductive WellNested : Context -> Prop :=
| WN_root (c : Context) :
    kind c = RootContext -> parentContext c = None -> WellNested c
| WN_hss (c p : Context) :
    kind c = HssContext -> parentContext c = Some p ->
    kind p <> HssContext -> WellNested p -> WellNested c
| WN_js (c p : Context) :
    kind c = JsContext -> parentContext c = Some p ->
    kind p = HssContext -> WellNested p -> WellNested c.

(** The states of the driver after some rounds on the input [inp] of the
    file [fname]. *)
Inductive Reachable (fname inp : string) : Reader -> Prop :=
| Reach_start : Reachable fname inp (Transpiler.create fname inp)
| Reach_step (r r' : Reader) :
    Reachable fname inp r -> Transpiler.step r = Ok r' ->
    Reachable fname inp r'.

(** [c] with [pfx] in front of the content of the context at the bottom
    of its chain. *)
Fixpoint prependRoot (pfx : string) (c : Context) : Context :=
  match c with
  | mkContext k None ct sl ic => mkContext k None (pfx ++ ct) sl ic
  | mkContext k (Some p) ct sl ic =>
      mkContext k (Some (prependRoot pfx p)) ct sl ic
  end.

(** The content [ct] of a region after the whitespace [ws]: one space,
    unless there is no whitespace or the content ends with a space. *)
Definition collapsed (ct ws : string) : string :=
  match ws with
  | "" => ct
  | _ => if slice_m1 ct =? " " then ct else ct ++ " "
  end.

(** [n] stylesheet regions, each in a host expression of the one around
    it, with [x] in the innermost host expression. *)
Fixpoint nestedInput (n : nat) : string :=
  match n with
  | 0 => "x"
  | S n' => "<<[" ++ nestedInput n' ++ "]>>"
  end.

(** The text a host expression holds after [nestedInput n]. *)
Fixpoint nestedExpr (n : nat) : string :=
  match n with
  | 0 => "x"
  | S n' => "'' + sheath.css.jsExpr(" ++ nestedExpr n' ++ ") + ''"
  end.

Import Transpiler.

(** ** Strings *)

Lemma app_empty_r (s : string) : s ++ "" = s.
Proof. induction s; simpl; congruence. Qed.

Lemma app_assoc (a b c : string) : (a ++ b) ++ c = a ++ b ++ c.
Proof. induction a; simpl; congruence. Qed.

Lemma length_app (a b : string) :
  String.length (a ++ b) = String.length a + String.length b.
Proof. induction a; simpl; congruence. Qed.

(** Right-nest every concatenation and evaluate it on literal prefixes. *)
Ltac norm_app :=
  repeat first [rewrite app_assoc | progress cbn [append]].

Lemma all_app (p : ascii -> bool) (a b : string) :
  all p (a ++ b) = all p a && all p b.
Proof.
  induction a as [|c a IH]; simpl; [reflexivity|].
  rewrite IH. apply andb_assoc.
Qed.

(** ** Every round of the driver consumes input *)

Lemma lineComment_loop_spec (inp : string) : forall acc str rest,
  Scan.lineComment_loop inp acc = (str, rest) ->
  exists body, inp = body ++ rest /\ str = acc ++ body.
Proof.
  induction inp as [|c inp IH]; simpl; intros acc str rest H.
  - inversion H; subst. exists "".
    split; [reflexivity | symmetry; apply app_empty_r].
  - destruct (c =? newline)%char.
    + inversion H; subst. exists "".
      split; [reflexivity | symmetry; apply app_empty_r].
    + apply IH in H. destruct H as [body [H1 H2]].
      exists (String c body). simpl. rewrite H1 at 1. split; [reflexivity|].
      rewrite H2, app_assoc. reflexivity.
Qed.

Lemma blockComment_loop_spec (inp : string) : forall acc ln str rest ln',
  Scan.blockComment_loop inp acc ln = (str, rest, ln') ->
  exists body, inp = body ++ rest /\ str = acc ++ body.
Proof.
  induction inp as [|c inp IH]; intros acc ln str rest ln' H.
  - simpl in H. inversion H; subst. exists "".
    split; [reflexivity | symmetry; apply app_empty_r].
  - cbn [Scan.blockComment_loop] in H.
    destruct (slice0 2 (String c inp) =? "*/").
    + inversion H; subst. exists "".
      split; [reflexivity | symmetry; apply app_empty_r].
    + apply IH in H. destruct H as [body [H1 H2]].
      exists (String c body). simpl. rewrite H1 at 1. split; [reflexivity|].
      rewrite H2, app_assoc. reflexivity.
Qed.

(** What a successful [STRING_loop] has consumed, and what it returns. *)
Lemma STRING_loop_spec (f : string) (t : ascii) :
  forall n inp str ln tok rest ln',
  String.length inp <= n ->
  Scan.STRING_loop f t inp str ln = Ok (tok, rest, ln') ->
  exists consumed,
    inp = consumed ++ rest /\ consumed <> "" /\
    ((t =? backslash)%char = false -> tok = str ++ dropEscapes consumed).
Proof.
  induction n as [|n IH]; intros inp str ln tok rest ln' Hn H;
    destruct inp as [|c inp]; cbn [Scan.STRING_loop] in H;
    try discriminate; simpl in Hn; [lia|].
  destruct (c =? t)%char eqn:Ect.
  { inversion H; subst. exists (String c ""). repeat split; [discriminate|].
    intros Ht. simpl. apply Ascii.eqb_eq in Ect. subst t.
    now rewrite Ht. }
  destruct (c =? backslash)%char eqn:Ecb.
  { destruct inp as [|d inp]; [discriminate|].
    apply IH in H; [|simpl in Hn; lia].
    destruct H as [cons [H1 [_ H3]]].
    exists (String c (String d cons)). simpl. rewrite Ecb.
    repeat split; [now rewrite H1 at 1 | discriminate |].
    intros Ht. rewrite (H3 Ht), app_assoc. reflexivity. }
  assert (Hstep : forall ln0,
    Scan.STRING_loop f t inp (str ++ String c "") ln0 = Ok (tok, rest, ln') ->
    exists consumed,
      String c inp = consumed ++ rest /\ consumed <> "" /\
      ((t =? backslash)%char = false -> tok = str ++ dropEscapes consumed)).
  { intros ln0 H0. apply IH in H0; [|lia].
    destruct H0 as [cons [H1 [_ H3]]].
    exists (String c cons). simpl. rewrite Ecb.
    repeat split; [now rewrite H1 at 1 | discriminate |].
    intros Ht. rewrite (H3 Ht), app_assoc. reflexivity. }
  destruct (c =? newline)%char.
  - destruct (negb (t =? backtick)%char); [discriminate|]. eauto.
  - eauto.
Qed.

Lemma next_length (r : Reader) :
  String.length (input (snd (Reader.next r))) <= String.length (input r).
Proof.
  destruct r as [f inp l c]. destruct inp; simpl; lia.
Qed.

Lemma lineComment_consumes (r : Reader) (c : ascii) (rest : string) :
  input r = String c rest -> (c =? newline)%char = false ->
  String.length (input (Scan.lineComment r)) <= String.length rest.
Proof.
  intros H Hc. unfold Scan.lineComment. rewrite H. simpl. rewrite Hc.
  destruct (Scan.lineComment_loop rest _) as [str rest'] eqn:E.
  apply lineComment_loop_spec in E. destruct E as [body [E _]].
  simpl. rewrite E, length_app. lia.
Qed.

Lemma next_cons (r : Reader) (c : ascii) (rest : string) :
  input r = String c rest ->
  Reader.next r = (Some c, set_cursor r rest (Reader.bump c (line r))).
Proof. intros H. unfold Reader.next. now rewrite H. Qed.

Lemma blockComment_consumes (r : Reader) (c : ascii) (rest : string) :
  input r = String c rest ->
  String.length (input (Scan.blockComment r)) <= String.length rest.
Proof.
  intros H. unfold Scan.blockComment. rewrite (next_cons r c rest H).
  set (r1 := set_cursor r rest _).
  pose proof (next_length r1) as H2.
  destruct (Reader.next r1) as [o2 r2]. simpl in H2.
  destruct (Scan.blockComment_loop (input r2) _ (line r2))
    as [[str rest'] ln] eqn:E.
  apply blockComment_loop_spec in E. destruct E as [body [E _]].
  pose proof (next_length (set_cursor r2 rest' ln)) as H3.
  destruct (Reader.next (set_cursor r2 rest' ln)) as [o3 r4]. simpl in H3.
  pose proof (next_length r4) as H4.
  destruct (Reader.next r4) as [o4 r5]. simpl in H4.
  simpl. rewrite E, length_app in H2. lia.
Qed.

Lemma endContext_input (r r' : Reader) :
  endContext r = Ok r' -> input r' = input r.
Proof.
  unfold endContext. destruct (parentContext (context r)); [|discriminate].
  intros H. inversion H. reflexivity.
Qed.

Lemma step_consumes (r r' : Reader) :
  Reader.peek r <> None -> step r = Ok r' ->
  String.length (input r') < String.length (input r).
Proof.
  destruct r as [f inp l ctx]. destruct inp as [|c rest];
    [intros H; now elim H|]. intros _. unfold step.
  cbn [Reader.peek input].
  destruct (quoteRegex c).
  { unfold Scan.STRING, Scan.readString.
    cbn [Reader.next input line set_cursor filename context].
    destruct (Scan.STRING_loop f c rest _ _) as [[[tok rest'] ln]|e] eqn:E;
      [|discriminate].
    intros H. inversion H; subst. simpl.
    apply (STRING_loop_spec f c _ _ _ _ _ _ _ (le_n _)) in E.
    destruct E as [cons [E _]]. rewrite E, length_app. lia. }
  destruct (c =? "/")%char eqn:Eslash.
  { intros H. inversion H; subst. clear H. unfold Scan.COMMENT.
    apply Ascii.eqb_eq in Eslash. subst c.
    destruct (Reader.peekN 2 _ =? "//").
    - eapply Nat.le_lt_trans;
        [eapply lineComment_consumes; reflexivity | simpl; lia].
    - destruct (Reader.peekN 2 _ =? "/*").
      + eapply Nat.le_lt_trans;
          [eapply blockComment_consumes; reflexivity | simpl; lia].
      + simpl. lia. }
  destruct (whitespaceRegex c).
  { intros H. inversion H; subst. simpl. lia. }
  set (r := mkReader f (String c rest) l ctx).
  assert (Hstart : forall r1, Ctx.childContextStart r = (true, r1) ->
            String.length (input r1) <= String.length rest).
  { unfold Ctx.childContextStart. intros r1.
    destruct (kind (context r)); simpl;
      repeat match goal with
      | |- context [if ?b then _ else _] => destruct b
      end; intros H; inversion H; subst; clear H;
      first [ etransitivity; [apply next_length|]; simpl; lia | simpl; lia ]. }
  assert (Hfalse : forall r1, Ctx.childContextStart r = (false, r1) -> r1 = r).
  { unfold Ctx.childContextStart. intros r1.
    destruct (kind (context r)); simpl;
      repeat match goal with
      | |- context [if ?b then _ else _] => destruct b
      end; intros H; inversion H; subst; reflexivity. }
  destruct (Ctx.childContextStart r) as [started r1].
  specialize (Hstart r1). specialize (Hfalse r1).
  destruct started.
  { intros H. inversion H; subst. simpl. specialize (Hstart eq_refl). lia. }
  rewrite (Hfalse eq_refl). clear Hstart Hfalse r1.
  assert (Hend : forall b r2, Ctx.contextEnd r = (b, r2) ->
            (b = true \/ r2 <> r ->
               String.length (input r2) <= String.length rest) /\
            String.length (input r2) <= S (String.length rest)).
  { unfold Ctx.contextEnd, Ctx.endDelimiter. intros b r2.
    subst r. cbn [context].
    destruct (kind ctx); simpl;
      repeat match goal with
      | |- context [if ?b then _ else _] => destruct b
      end; intros H; inversion H; subst; clear H; simpl;
      (split; [intros [?|Hne]; try discriminate; try (now elim Hne)|]);
      repeat (etransitivity; [apply next_length|]); simpl; lia. }
  destruct (Ctx.contextEnd r) as [ended r2].
  destruct (Hend ended r2 eq_refl) as [He1 He2]. clear Hend.
  destruct ended.
  { intros H. apply endContext_input in H. rewrite H.
    simpl. specialize (He1 (or_introl eq_refl)). lia. }
  pose proof (next_length r2) as Hn.
  destruct (Reader.next r2) as [o r3] eqn:En. simpl in Hn.
  intros H. inversion H; subst. simpl.
  destruct r2 as [f2 inp2 l2 c2]. destruct inp2 as [|c0 rest2].
  - simpl in *. lia.
  - simpl in En. inversion En; subst. simpl in *. lia.
Qed.

(** ** The round bound of the driver loop is never reached *)

Lemma peek_None_length (r : Reader) :
  Reader.peek r = None <-> String.length (input r) = 0.
Proof.
  destruct r as [f inp l c]. destruct inp; simpl; split;
    intros; (reflexivity || discriminate).
Qed.

Lemma loop_fuel (n : nat) : forall m r,
  String.length (input r) <= n -> String.length (input r) <= m ->
  loop n r = loop m r.
Proof.
  induction n as [|n IH]; intros m r Hn Hm.
  - assert (Hp : Reader.peek r = None) by (apply peek_None_length; lia).
    destruct m; simpl; now rewrite Hp.
  - destruct m as [|m].
    + assert (Hp : Reader.peek r = None) by (apply peek_None_length; lia).
      simpl. now rewrite Hp.
    + simpl. destruct (Reader.peek r) eqn:Hp; [|reflexivity].
      destruct (step r) as [r'|e] eqn:Hs; [|reflexivity]. simpl.
      apply step_consumes in Hs; [|congruence].
      apply IH; lia.
Qed.

(** The loop unfolds by one round, whatever the bound. *)
Lemma run_step (r : Reader) :
  Reader.peek r <> None -> run r = r' <- step r ;; run r'.
Proof.
  intros Hp. unfold run.
  destruct (String.length (input r)) as [|n] eqn:Hl.
  - apply peek_None_length in Hl. contradiction.
  - simpl. destruct (Reader.peek r) eqn:Hpk; [|now elim Hp].
    destruct (step r) as [r'|e] eqn:Hs; [|reflexivity]. simpl.
    apply step_consumes in Hs; [|congruence].
    apply loop_fuel; lia.
Qed.

Lemma run_done (r : Reader) : Reader.peek r = None -> run r = Ok r.
Proof.
  intros Hp. unfold run. destruct (String.length (input r)); simpl;
    now rewrite Hp.
Qed.

Lemma STRING_loop_not_exhausted (f : string) (t : ascii) :
  forall n inp str ln, String.length inp <= n ->
  Scan.STRING_loop f t inp str ln <> Throw FuelExhausted.
Proof.
  induction n as [|n IH]; intros inp str ln Hn;
    destruct inp as [|d inp]; cbn [Scan.STRING_loop];
    try discriminate; simpl in Hn; [lia|].
  destruct (d =? t)%char; [discriminate|].
  destruct (d =? backslash)%char.
  - destruct inp as [|d' inp].
    + cbn [Scan.STRING_loop]. discriminate.
    + apply IH. simpl in Hn. lia.
  - destruct (d =? newline)%char.
    + destruct (negb (t =? backtick)%char); [discriminate|]. apply IH. lia.
    + apply IH. lia.
Qed.

Lemma step_not_exhausted (r : Reader) : step r <> Throw FuelExhausted.
Proof.
  unfold step. destruct (Reader.peek r) as [c|]; [|discriminate].
  destruct (quoteRegex c).
  { unfold Scan.STRING, Scan.readString.
    destruct (Reader.next r) as [[t|] r1]; [|discriminate].
    pose proof (STRING_loop_not_exhausted (filename r) t _ (input r1)
                  (String t "") (line r1) (le_n _)) as H.
    destruct (Scan.STRING_loop _ _ _ _ _) as [[[tok rest] ln]|e];
      [discriminate|]. intros H0. apply H. inversion H0. reflexivity. }
  destruct (c =? "/")%char; [discriminate|].
  destruct (whitespaceRegex c); [discriminate|].
  destruct (Ctx.childContextStart r) as [[|] r1]; [discriminate|].
  destruct (Ctx.contextEnd r1) as [[|] r2].
  - unfold endContext. destruct (parentContext (context r2)); discriminate.
  - destruct (Reader.next r2). discriminate.
Qed.

Lemma loop_not_exhausted (n : nat) : forall r,
  String.length (input r) <= n -> loop n r <> Throw FuelExhausted.
Proof.
  induction n as [|n IH]; intros r Hn; simpl.
  - assert (Hp : Reader.peek r = None) by (apply peek_None_length; lia).
    rewrite Hp. discriminate.
  - destruct (Reader.peek r) eqn:Hp; [|discriminate].
    destruct (step r) as [r'|e] eqn:Hs; simpl.
    + apply IH. apply step_consumes in Hs; [lia|congruence].
    + intros H. inversion H. subst e. now apply (step_not_exhausted r).
Qed.

(** [transpile] always ends: it returns a string or throws an exception
    of the source. *)
Theorem transpile_total (fname inp : string) :
  transpile fname inp <> Throw FuelExhausted.
Proof.
  unfold transpile.
  destruct (run (create fname inp)) as [r|e] eqn:Hr; simpl.
  - unfold finish. destruct (kind (context r)); discriminate.
  - intros H. inversion H. subst e.
    now apply (loop_not_exhausted _ _ (le_n _)) in Hr.
Qed.

(** ** String literals *)

Lemma quote_not_newline (q : ascii) :
  quoteRegex q = true -> (q =? newline)%char = false.
Proof.
  unfold quoteRegex. intros H.
  destruct (q =? newline)%char eqn:E; [|reflexivity].
  apply Ascii.eqb_eq in E. subst q. discriminate H.
Qed.

Lemma quote_not_backslash (q : ascii) :
  quoteRegex q = true -> (q =? backslash)%char = false.
Proof.
  unfold quoteRegex. intros H.
  destruct (q =? backslash)%char eqn:E; [|reflexivity].
  apply Ascii.eqb_eq in E. subst q. discriminate H.
Qed.

Lemma bump_plus (c : ascii) (a b : nat) :
  Reader.bump c a + b = a + Reader.bump c b.
Proof. unfold Reader.bump. destruct (c =? newline)%char; lia. Qed.

Lemma lineChar_bodyChar (q : ascii) (s : string) :
  all (lineChar q) s = true ->
  all (bodyChar q) s = true /\ countNewlines s = 0.
Proof.
  induction s as [|c s IH]; simpl; [auto|].
  intros H. apply andb_prop in H. destruct H as [Hc Hs].
  destruct (IH Hs) as [IH1 IH2]. rewrite IH1, IH2.
  unfold lineChar in Hc. unfold bodyChar, Reader.bump.
  destruct (c =? q)%char; [discriminate|].
  destruct (c =? backslash)%char; [discriminate|].
  destruct (c =? newline)%char; [discriminate|]. auto.
Qed.

(** The loop of [STRING] copies a run of unescaped body characters. *)
Lemma STRING_loop_body (f : string) (q : ascii) (body : string) :
  all (bodyChar q) body = true ->
  forall rest str ln,
  Scan.STRING_loop f q (body ++ rest) str ln =
  Scan.STRING_loop f q rest (str ++ body) (ln + countNewlines body).
Proof.
  induction body as [|c body IH]; intros Hb rest str ln.
  - simpl. now rewrite app_empty_r, Nat.add_0_r.
  - simpl in Hb. apply andb_prop in Hb. destruct Hb as [Hc Hb].
    unfold bodyChar in Hc.
    cbn [append Scan.STRING_loop countNewlines].
    destruct (c =? q)%char; [discriminate|].
    destruct (c =? backslash)%char; [discriminate|].
    rewrite <- bump_plus.
    destruct (c =? newline)%char eqn:En.
    + simpl in Hc. rewrite Hc. simpl.
      rewrite IH by assumption. rewrite app_assoc. unfold Reader.bump.
      now rewrite En.
    + rewrite IH by assumption. rewrite app_assoc. unfold Reader.bump.
      now rewrite En.
Qed.

(** A closed literal without escapes is read as it stands. *)
Lemma readString_closed (f : string) (q : ascii) (body rest : string)
      (l : nat) (ctx : Context) :
  quoteRegex q = true -> all (bodyChar q) body = true ->
  Scan.readString (mkReader f (String q (body ++ String q rest)) l ctx) =
  Ok (String q (body ++ String q ""), rest, l + countNewlines body).
Proof.
  intros Hq Hb. unfold Scan.readString.
  cbn [Reader.next input line set_cursor filename context].
  rewrite STRING_loop_body by assumption.
  cbn [Scan.STRING_loop]. rewrite Ascii.eqb_refl.
  unfold Reader.bump. rewrite (quote_not_newline q Hq).
  reflexivity.
Qed.

(** A raw line break inside single or double quotes. *)
Lemma readString_multiline (f : string) (q : ascii) (body rest : string)
      (l : nat) (ctx : Context) :
  quoteRegex q = true -> (q =? backtick)%char = false ->
  all (lineChar q) body = true ->
  Scan.readString (mkReader f (String q (body ++ String newline rest)) l ctx) =
  Throw (Reader.errorAt f l "Unexpected multi-line string").
Proof.
  intros Hq Hbt Hb. apply lineChar_bodyChar in Hb. destruct Hb as [Hb Hn].
  unfold Scan.readString.
  cbn [Reader.next input line set_cursor filename context].
  rewrite STRING_loop_body by assumption.
  cbn [Scan.STRING_loop]. rewrite Hn, Nat.add_0_r.
  unfold Reader.bump. rewrite (quote_not_newline q Hq).
  rewrite Ascii.eqb_sym, (quote_not_newline q Hq).
  change (newline =? backslash)%char with false.
  rewrite Ascii.eqb_refl, Hbt. reflexivity.
Qed.

(** The input ends inside a literal. *)
Lemma readString_eof (f : string) (q : ascii) (body : string)
      (l : nat) (ctx : Context) :
  quoteRegex q = true -> all (bodyChar q) body = true ->
  Scan.readString (mkReader f (String q body) l ctx) =
  Throw (Reader.errorAt f (l + countNewlines body) "Unexpected end of file").
Proof.
  intros Hq Hb. unfold Scan.readString.
  cbn [Reader.next input line set_cursor filename context].
  rewrite <- (app_empty_r body) at 1.
  rewrite STRING_loop_body by assumption.
  cbn [Scan.STRING_loop].
  unfold Reader.bump. now rewrite (quote_not_newline q Hq).
Qed.

(** An error of [STRING()] leaves the driver loop. *)
Lemma run_string_throw (r : Reader) (q : ascii) (e : Exn) :
  Reader.peek r = Some q -> quoteRegex q = true ->
  Scan.readString r = Throw e -> run r = Throw e.
Proof.
  intros Hp Hq He. rewrite run_step by congruence.
  unfold step. rewrite Hp, Hq. unfold Scan.STRING. now rewrite He.
Qed.

Lemma transpile_string_throw (f inp : string) (q : ascii) (e : Exn) :
  Reader.peek (create f inp) = Some q -> quoteRegex q = true ->
  Scan.readString (create f inp) = Throw e -> transpile f inp = Throw e.
Proof.
  intros Hp Hq He. unfold transpile.
  now rewrite (run_string_throw _ q e Hp Hq He).
Qed.

Lemma substring_prefix (a b : string) :
  substring 0 (String.length a) (a ++ b) = a.
Proof.
  induction a as [|c a IH]; simpl.
  - destruct b; reflexivity.
  - now rewrite IH.
Qed.

Lemma slice_1_m1_quoted (q q' : ascii) (body : string) :
  slice_1_m1 (String q (body ++ String q' "")) = body.
Proof.
  unfold slice_1_m1. cbn [String.length]. rewrite length_app. simpl.
  replace (String.length body + 1 - 1) with (String.length body) by lia.
  apply substring_prefix.
Qed.

Lemma replaceAll_app (c : ascii) (by_ a b : string) :
  replaceAll c by_ (a ++ b) = replaceAll c by_ a ++ replaceAll c by_ b.
Proof.
  induction a as [|d a IH]; simpl; [reflexivity|].
  now rewrite IH, app_assoc.
Qed.

(** ** The claims about string literals *)

(** C2, as amended: for every string token scanned, with any delimiter,
    the token is the text consumed with every backslash dropped and the
    one character after each backslash copied unchanged; an escape
    sequence is not interpreted.  One round of the loop on a backslash
    skips it and appends the next character. *)
Theorem C2_escape_drops_backslash
    (r : Reader) (q : ascii) (tok rest : string) (ln : nat) :
  Reader.peek r = Some q -> quoteRegex q = true ->
  Scan.readString r = Ok (tok, rest, ln) ->
  (exists consumed, input r = consumed ++ rest /\ tok = dropEscapes consumed)
  /\ (forall f c inp str l,
        Scan.STRING_loop f q (String backslash (String c inp)) str l =
        Scan.STRING_loop f q inp (str ++ String c "") (Reader.bump c l)).
Proof.
  intros Hp Hq H. pose proof (quote_not_backslash q Hq) as Hqb. split.
  - destruct r as [f inp l ctx]. destruct inp as [|c inp]; [discriminate|].
    simpl in Hp. inversion Hp; subst c. unfold Scan.readString in H.
    cbn [Reader.next input line set_cursor filename context] in H.
    apply (STRING_loop_spec f q _ _ _ _ _ _ _ (le_n _)) in H.
    destruct H as [cons [H1 [_ H3]]].
    exists (String q cons). simpl. rewrite Hqb, H1, (H3 Hqb). auto.
  - intros f c inp str l. cbn [Scan.STRING_loop].
    rewrite Ascii.eqb_sym, Hqb. reflexivity.
Qed.

Lemma C2_escape_drops_backslash_witness :
  (exists consumed,
     "'a\'b'!" = consumed ++ "!" /\ "'a'b'" = dropEscapes consumed)
  /\ (forall f c inp str l,
        Scan.STRING_loop f squote (String backslash (String c inp)) str l =
        Scan.STRING_loop f squote inp (str ++ String c "") (Reader.bump c l)).
Proof.
  apply (C2_escape_drops_backslash (create "f" "'a\'b'!") squote
           "'a'b'" "!" 1); reflexivity.
Defined.

(** C2, as stated, fails: the backslash of an escape is not copied into
    the token. *)
Lemma C2_counterexample :
  Scan.readString (create "f" "'a\'b'") = Ok ("'a'b'", "", 1)
  /\ "'a'b'" <> "'a\'b'".
Proof. split; [reflexivity | discriminate]. Qed.

(** C7: inside a string token a raw line break is fatal between single or
    double quotes and accepted between backticks; the end of the input
    before the closing delimiter is fatal with the message
    [Unexpected end of file]; both errors leave the driver loop and are
    the outcome of [transpile]. *)
Theorem C7_string_errors
    (f : string) (q : ascii) (body pre post rest : string)
    (l : nat) (ctx : Context) :
  quoteRegex q = true -> (q =? backtick)%char = false ->
  all (lineChar q) body = true ->
  all (lineChar backtick) pre = true ->
  all (lineChar backtick) post = true ->
  let multiline := String q (body ++ String newline rest) in
  let unclosed := String q body in
  (Scan.readString (mkReader f multiline l ctx) =
     Throw (Reader.errorAt f l "Unexpected multi-line string")
   /\ run (mkReader f multiline l ctx) =
     Throw (Reader.errorAt f l "Unexpected multi-line string")
   /\ transpile f multiline =
     Throw (Reader.errorAt f 1 "Unexpected multi-line string"))
  /\ Scan.readString
       (mkReader f (String backtick
                      (pre ++ String newline (post ++ String backtick rest)))
                 l ctx) =
     Ok (String backtick (pre ++ String newline (post ++ String backtick "")),
         rest, S l)
  /\ (Scan.readString (mkReader f unclosed l ctx) =
        Throw (Reader.errorAt f l "Unexpected end of file")
      /\ Scan.readString (mkReader f (String backtick pre) l ctx) =
        Throw (Reader.errorAt f l "Unexpected end of file")
      /\ run (mkReader f unclosed l ctx) =
        Throw (Reader.errorAt f l "Unexpected end of file")
      /\ transpile f unclosed =
        Throw (Reader.errorAt f 1 "Unexpected end of file")).
Proof.
  intros Hq Hbt Hb Hpre Hpost multiline unclosed.
  assert (Hm : forall l0 c0,
    Scan.readString (mkReader f multiline l0 c0) =
    Throw (Reader.errorAt f l0 "Unexpected multi-line string"))
    by (intros; now apply readString_multiline).
  assert (He : forall l0 c0,
    Scan.readString (mkReader f unclosed l0 c0) =
    Throw (Reader.errorAt f l0 "Unexpected end of file")).
  { intros l0 c0. unfold unclosed.
    destruct (lineChar_bodyChar _ _ Hb) as [Hb1 Hb2].
    rewrite readString_eof by assumption. now rewrite Hb2, Nat.add_0_r. }
  repeat split.
  - apply Hm.
  - apply (run_string_throw _ q); [reflexivity | assumption | apply Hm].
  - apply (transpile_string_throw _ _ q); [reflexivity | assumption | apply Hm].
  - destruct (lineChar_bodyChar _ _ Hpre) as [Hp1 Hp2].
    destruct (lineChar_bodyChar _ _ Hpost) as [Hq1 Hq2].
    replace (pre ++ String newline (post ++ String backtick rest))
      with ((pre ++ String newline post) ++ String backtick rest)
      by (now rewrite app_assoc).
    replace (pre ++ String newline (post ++ String backtick ""))
      with ((pre ++ String newline post) ++ String backtick "")
      by (now rewrite app_assoc).
    rewrite readString_closed.
    + rewrite Nat.add_comm. f_equal. f_equal.
      clear - Hp2 Hq2. induction pre as [|c pre IH]; simpl in *.
      * unfold Reader.bump. simpl. now rewrite Hq2.
      * unfold Reader.bump in *. destruct (c =? newline)%char;
          [discriminate|]. now apply IH.
    + reflexivity.
    + rewrite all_app. rewrite Hp1. simpl. exact Hq1.
  - apply He.
  - destruct (lineChar_bodyChar _ _ Hpre) as [Hp1 Hp2].
    rewrite readString_eof by (reflexivity || assumption).
    now rewrite Hp2, Nat.add_0_r.
  - apply (run_string_throw _ q); [reflexivity | assumption | apply He].
  - apply (transpile_string_throw _ _ q); [reflexivity | assumption | apply He].
Qed.

Lemma C7_string_errors_witness :
  transpile "f" (String dquote "abc") =
    Throw (SyntaxError ("Hss Error in f on line 1"
                        ++ String newline "Unexpected end of file"))
  /\ transpile "f" (String dquote ("abc" ++ String newline "z")) =
    Throw (SyntaxError ("Hss Error in f on line 1"
                        ++ String newline "Unexpected multi-line string"))
  /\ Scan.readString
       (create "f" ("`x" ++ String newline "y`z")) =
     Ok ("`x" ++ String newline "y`", "z", 2).
Proof.
  destruct (C7_string_errors "f" dquote "abc" "x" "y" "z" 1
              (mkContext RootContext None "" 1 0)
              eq_refl eq_refl eq_refl eq_refl eq_refl)
    as [[_ [_ H1]] [H2 [_ [_ [_ H3]]]]].
  split; [exact H3|]. split; [exact H1 | exact H2].
Defined.

(** C9: inside a single- or double-quoted string a backslash followed by
    a line break raises no error: the escape branch consumes both
    characters, the line break is copied into the token and the line
    counter is incremented, where the same line break without the
    backslash is the multi-line-string error. *)
Theorem C9_escaped_line_break
    (f : string) (q : ascii) (pre post rest : string)
    (l : nat) (ctx : Context) :
  quoteRegex q = true -> (q =? backtick)%char = false ->
  all (lineChar q) pre = true -> all (lineChar q) post = true ->
  Scan.readString
    (mkReader f (String q (pre ++ String backslash (String newline
                                    (post ++ String q rest)))) l ctx) =
    Ok (String q (pre ++ String newline (post ++ String q "")), rest, S l)
  /\ Scan.readString
       (mkReader f (String q (pre ++ String newline (post ++ String q rest)))
                 l ctx) =
     Throw (Reader.errorAt f l "Unexpected multi-line string").
Proof.
  intros Hq Hbt Hpre Hpost. split; [|now apply readString_multiline].
  destruct (lineChar_bodyChar _ _ Hpre) as [Hp1 Hp2].
  destruct (lineChar_bodyChar _ _ Hpost) as [Hq1 Hq2].
  unfold Scan.readString.
  cbn [Reader.next input line set_cursor filename context].
  rewrite STRING_loop_body by assumption.
  cbn [Scan.STRING_loop].
  rewrite Ascii.eqb_sym, (quote_not_backslash q Hq), Ascii.eqb_refl.
  rewrite STRING_loop_body by assumption.
  cbn [Scan.STRING_loop]. rewrite Ascii.eqb_refl.
  rewrite Hp2, Hq2, !Nat.add_0_r.
  unfold Reader.bump. rewrite (quote_not_newline q Hq), Ascii.eqb_refl.
  simpl. now rewrite !app_assoc.
Qed.

Lemma C9_escaped_line_break_witness :
  Scan.readString
    (create "f" (String squote ("ab" ++ String backslash (String newline
                                   ("cd" ++ String squote "!"))))) =
  Ok (String squote ("ab" ++ String newline ("cd" ++ String squote "")),
      "!", 2).
Proof.
  apply (C9_escaped_line_break "f" squote "ab" "cd" "!" 1
           (mkContext RootContext None "" 1 0)); reflexivity.
Defined.

(** C8: a STRING token delivered to a stylesheet-expression region whose
    delimiter is a single quote loses its surrounding quotes, has every
    single quote inside replaced by three backslashes and a quote, and is
    appended between two backslash-escaped single quotes; a token whose
    delimiter is a double quote or a backtick is appended unchanged. *)
Theorem C8_hss_string_requoting
    (c : Context) (body : string) (q : ascii) (tail : string) :
  kind c = HssContext -> q = dquote \/ q = backtick ->
  Ctx.add c (String squote (body ++ String squote "")) (Some Token.STRING) =
    set_content c (content c ++ "\'" ++ replaceAll squote "\\\'" body ++ "\'")
  /\ Ctx.add c (String q tail) (Some Token.STRING) =
    set_content c (content c ++ String q tail)
  /\ (forall a b,
        replaceAll squote "\\\'" (a ++ String squote b) =
        replaceAll squote "\\\'" a ++ "\\\'" ++ replaceAll squote "\\\'" b)
  /\ (all (fun d => negb (d =? squote)%char) body = true ->
      replaceAll squote "\\\'" body = body).
Proof.
  intros Hk Hq. unfold Ctx.add, Ctx.HssContext_STRING, Ctx.append.
  rewrite Hk. repeat split.
  - rewrite Ascii.eqb_refl, slice_1_m1_quoted. reflexivity.
  - destruct Hq; subst q; reflexivity.
  - intros a b. rewrite replaceAll_app. reflexivity.
  - induction body as [|d body IH]; simpl; [reflexivity|].
    intros H. apply andb_prop in H. destruct H as [Hd Hb].
    destruct (d =? squote)%char; [discriminate|]. simpl. now rewrite IH.
Qed.

Lemma C8_hss_string_requoting_witness :
  Ctx.add (mkContext HssContext None "x " 1 0) "'a'b'" (Some Token.STRING) =
    mkContext HssContext None "x \'a\\\'b\'" 1 0
  /\ Ctx.add (mkContext HssContext None "x " 1 0) (String dquote "s'")
             (Some Token.STRING) =
    mkContext HssContext None ("x " ++ String dquote "s'") 1 0.
Proof.
  destruct (C8_hss_string_requoting (mkContext HssContext None "x " 1 0)
              "a'b" dquote "s'" eq_refl (or_introl eq_refl))
    as [H1 [H2 _]].
  split; [exact H1 | exact H2].
Defined.

(** ** Worked inputs *)

(** C4: the input [<< 'a' + [x+1] >>] transpiles to an [evaluate] call on
    the trimmed region in single quotes, in which the single-quoted
    string is re-wrapped in escaped single quotes and the host expression
    is spliced by a [jsExpr] call.  The runtime module of the generated
    code is [sheath.css]. *)
Theorem C4_scenario_three (f : string) :
  transpile f "<< 'a' + [x+1] >>" =
  Ok "sheath.css.evaluate('\'a\' + ' + sheath.css.jsExpr(x+1) + '')".
Proof. reflexivity. Qed.

(** C5, where the code departs from it.  In a host expression whose
    bracket counter is positive a closing bracket is appended and the
    counter decremented, and an opening bracket that is appended
    increments it; but the round that appends the closing bracket goes on
    to append the character after it as well, whatever it is.  In
    [<<[a[0]]>>] that character is the closing bracket of the region, so
    the region is never closed; with a character between the two closing
    brackets the region closes at the second one. *)
Theorem C5_terminator_swallowed (f : string) :
  transpile f "<<[a[0]]>>" =
    Throw (SyntaxError
      ("Hss Error in " ++ f ++ " on line 1" ++ String newline
       ("Unexpected end of file. It looks like you forgot the closing "
        ++ String dquote ("]" ++ String dquote
        " of the JavaScript expression beginning on line 1."))))
  /\ transpile f "<<[a[0] ]>>" =
    Ok "sheath.css.evaluate('' + sheath.css.jsExpr(a[0] ) + '')"
  /\ (forall d rest l p ct sl n,
        step (mkReader f (String "]" (String d rest)) l
                       (mkContext JsContext p ct sl (S n))) =
        Ok (mkReader f rest (Reader.bump d l)
              (mkContext JsContext p (ct ++ String "]" (String d "")) sl
                         (if (d =? "[")%char then S n else n)))).
Proof.
  split; [reflexivity|]. split; [reflexivity|].
  intros d rest l p ct sl n. unfold step. simpl.
  unfold Ctx.append, Ctx.beforeAdd, set_ignoreCount, set_content,
    set_context, set_cursor. simpl.
  rewrite Nat.sub_0_r.
  destruct (d =? "[")%char; simpl; rewrite app_assoc; reflexivity.
Qed.

(** ** Rounds of the driver *)

Lemma plainChar_facts (c : ascii) :
  plainChar c = true ->
  quoteRegex c = false /\ (c =? "/")%char = false /\
  whitespaceRegex c = false /\ (c =? "<")%char = false /\
  (c =? ">")%char = false /\ (c =? "[")%char = false /\
  (c =? "]")%char = false.
Proof.
  unfold plainChar. intros H.
  repeat (apply andb_prop in H; destruct H as [H ?]).
  repeat match goal with
  | H : negb _ = true |- _ => apply negb_true_iff in H
  end. auto 10.
Qed.

Lemma plainChar_not_newline (c : ascii) :
  plainChar c = true -> (c =? newline)%char = false.
Proof.
  intros H. apply plainChar_facts in H. destruct H as [_ [_ [H _]]].
  destruct (c =? newline)%char eqn:E; [|reflexivity].
  apply Ascii.eqb_eq in E. subst c. discriminate H.
Qed.

(** A plain character is appended to the content of the current context,
    whatever its class. *)
Lemma step_plain (f : string) (c : ascii) (rest : string)
      (l : nat) (ctx : Context) :
  plainChar c = true ->
  step (mkReader f (String c rest) l ctx) =
  Ok (mkReader f rest l (set_content ctx (content ctx ++ String c ""))).
Proof.
  intros Hc. pose proof (plainChar_not_newline c Hc) as Hb.
  apply plainChar_facts in Hc.
  destruct Hc as [H1 [H2 [H3 [H4 [H5 [H6 H7]]]]]].
  unfold step. cbn [Reader.peek input]. rewrite H1, H2, H3.
  unfold Ctx.childContextStart, Ctx.contextEnd, Ctx.endDelimiter,
    Reader.peekN, Reader.peek, Reader.next, Reader.bump, Ctx.add,
    Ctx.append, Ctx.beforeAdd.
  destruct ctx as [k p ct sl ic].
  destruct k;
    repeat (progress (simpl; rewrite ?H4, ?H5, ?H6, ?H7, ?Hb));
    reflexivity.
Qed.

Lemma run_plain (f : string) (s : string) :
  plain s = true -> forall rest l k p ct sl ic,
  run (mkReader f (s ++ rest) l (mkContext k p ct sl ic)) =
  run (mkReader f rest l (mkContext k p (ct ++ s) sl ic)).
Proof.
  induction s as [|c s IH]; intros Hs rest l k p ct sl ic.
  - simpl. now rewrite app_empty_r.
  - simpl in Hs. apply andb_prop in Hs. destruct Hs as [Hc Hs].
    cbn [append]. rewrite run_step by discriminate.
    rewrite step_plain by assumption. cbn [bind].
    unfold set_content. cbn [kind parentContext content startingLine
                            ignoreCount].
    rewrite IH by assumption. now rewrite app_assoc.
Qed.

(** [<<] opens a stylesheet region in the root and in a host expression. *)
Lemma run_open_hss (f rest : string) (l : nat) (ctx : Context) :
  kind ctx <> HssContext ->
  run (mkReader f ("<<" ++ rest) l ctx) =
  run (mkReader f rest l (mkContext HssContext (Some ctx) "" l 0)).
Proof.
  intros Hk. rewrite run_step by discriminate.
  assert (Hs : step (mkReader f ("<<" ++ rest) l ctx) =
               Ok (mkReader f rest l (mkContext HssContext (Some ctx) "" l 0))).
  { destruct ctx as [k p ct sl ic].
    destruct k; try (now elim Hk); reflexivity. }
  now rewrite Hs.
Qed.

(** An opening bracket opens a host expression in a stylesheet region. *)
Lemma run_open_js (f rest : string) (l : nat) (ctx : Context) :
  kind ctx = HssContext ->
  run (mkReader f ("[" ++ rest) l ctx) =
  run (mkReader f rest l (mkContext JsContext (Some ctx) "" l 0)).
Proof.
  intros Hk. rewrite run_step by discriminate.
  assert (Hs : step (mkReader f ("[" ++ rest) l ctx) =
               Ok (mkReader f rest l (mkContext JsContext (Some ctx) "" l 0))).
  { destruct ctx as [k p ct sl ic]. simpl in Hk. subst k. reflexivity. }
  now rewrite Hs.
Qed.

(** [>>] closes a stylesheet region and folds it into its parent. *)
Lemma run_close_hss (f rest : string) (l : nat) (p : Context)
      (ct : string) (sl ic : nat) :
  run (mkReader f (">>" ++ rest) l (mkContext HssContext (Some p) ct sl ic)) =
  run (mkReader f rest l (Ctx.saveChildContent p ("'" ++ trim ct ++ "'"))).
Proof.
  rewrite run_step by discriminate.
  assert (Hs : step (mkReader f (">>" ++ rest) l
                              (mkContext HssContext (Some p) ct sl ic)) =
               Ok (mkReader f rest l
                     (Ctx.saveChildContent p ("'" ++ trim ct ++ "'"))))
    by reflexivity.
  now rewrite Hs.
Qed.

(** A closing bracket closes a host expression whose counter is zero. *)
Lemma run_close_js (f rest : string) (l : nat) (p : Context)
      (ct : string) (sl : nat) :
  run (mkReader f ("]" ++ rest) l (mkContext JsContext (Some p) ct sl 0)) =
  run (mkReader f rest l
         (Ctx.saveChildContent p
            ("' + sheath.css.jsExpr(" ++ ct ++ ") + '"))).
Proof.
  rewrite run_step by discriminate.
  assert (Hs : step (mkReader f ("]" ++ rest) l
                              (mkContext JsContext (Some p) ct sl 0)) =
               Ok (mkReader f rest l
                     (Ctx.saveChildContent p
                        ("' + sheath.css.jsExpr(" ++ ct ++ ") + '"))))
    by reflexivity.
  now rewrite Hs.
Qed.

(** How each class folds the text of a closed child. *)
Lemma save_root (p : option Context) (ct s : string) (sl ic : nat) :
  Ctx.saveChildContent (mkContext RootContext p ct sl ic) s =
  mkContext RootContext p (ct ++ "sheath.css.evaluate(" ++ s ++ ")") sl ic.
Proof. reflexivity. Qed.

Lemma save_hss (p : option Context) (ct s : string) (sl ic : nat) :
  Ctx.saveChildContent (mkContext HssContext p ct sl ic) s =
  mkContext HssContext p (ct ++ s) sl ic.
Proof. reflexivity. Qed.

Lemma save_js (p : option Context) (ct s : string) (sl ic : nat) :
  Ctx.saveChildContent (mkContext JsContext p ct sl ic) (String squote s) =
  mkContext JsContext p (ct ++ String squote s) sl ic.
Proof. reflexivity. Qed.

(** ** Trimming *)

Lemma trimEnd_nonspace (s : string) :
  all (fun c => negb (whitespaceRegex c)) s = true -> trimEnd s = s.
Proof.
  induction s as [|c s IH]; simpl; [reflexivity|].
  intros H. apply andb_prop in H. destruct H as [Hc Hs].
  rewrite (IH Hs). apply negb_true_iff in Hc. rewrite Hc.
  now destruct s.
Qed.

Lemma trimEnd_app (s t : string) :
  t <> "" -> trimEnd t = t -> trimEnd (s ++ t) = s ++ t.
Proof.
  intros Hne Ht. induction s as [|c s IH]; simpl; [assumption|].
  rewrite IH. destruct (s ++ t) eqn:E; [|reflexivity].
  destruct s; simpl in E; [now elim Hne | discriminate].
Qed.

Lemma plain_nonspace (s : string) :
  plain s = true -> all (fun c => negb (whitespaceRegex c)) s = true.
Proof.
  induction s as [|c s IH]; simpl; [reflexivity|].
  intros H. apply andb_prop in H. destruct H as [Hc Hs].
  rewrite (IH Hs). apply plainChar_facts in Hc.
  destruct Hc as [_ [_ [Hc _]]]. now rewrite Hc.
Qed.

Lemma trim_plain (s : string) : plain s = true -> trim s = s.
Proof.
  intros H. unfold trim.
  assert (Hs : trimStart s = s).
  { destruct s as [|c s]; [reflexivity|]. simpl in *.
    apply andb_prop in H. destruct H as [Hc _].
    apply plainChar_facts in Hc. destruct Hc as [_ [_ [Hc _]]].
    now rewrite Hc. }
  rewrite Hs. apply trimEnd_nonspace. now apply plain_nonspace.
Qed.

(** Content that starts and ends with plain text or a single quote is
    not changed by [trim]. *)
Lemma trim_quoted (a mid e : string) :
  plain a = true -> plain e = true ->
  trim (a ++ String squote (mid ++ String squote e)) =
  a ++ String squote (mid ++ String squote e).
Proof.
  intros Ha He. unfold trim.
  assert (Hs : trimStart (a ++ String squote (mid ++ String squote e)) =
               a ++ String squote (mid ++ String squote e)).
  { destruct a as [|c a]; [reflexivity|]. simpl in *.
    apply andb_prop in Ha. destruct Ha as [Hc _].
    apply plainChar_facts in Hc. destruct Hc as [_ [_ [Hc _]]].
    now rewrite Hc. }
  rewrite Hs.
  replace (a ++ String squote (mid ++ String squote e))
    with ((a ++ String squote mid) ++ String squote e)
    by (now rewrite app_assoc).
  apply trimEnd_app; [discriminate|].
  apply trimEnd_nonspace. simpl. now apply plain_nonspace.
Qed.

(** ** Nested regions *)

(** C1, as amended: a stylesheet region that contains a host-expression
    region that contains another stylesheet region transpiles to two
    nested calls, [evaluate] around [jsExpr]; the inner stylesheet region
    is folded into the argument of [jsExpr] as a single-quoted string
    literal, without an [evaluate] call of its own, in the order of the
    input. *)
Theorem C1_nested_regions (f a b c d e : string) :
  plain a = true -> plain b = true -> plain c = true ->
  plain d = true -> plain e = true ->
  transpile f ("<<" ++ a ++ "[" ++ b ++ "<<" ++ c ++ ">>" ++ d ++ "]"
               ++ e ++ ">>") =
  Ok ("sheath.css.evaluate('" ++ a ++ "' + sheath.css.jsExpr(" ++ b
      ++ "'" ++ c ++ "'" ++ d ++ ") + '" ++ e ++ "')").
Proof.
  intros Ha Hb Hc Hd He. unfold transpile, create.
  rewrite run_open_hss by discriminate.
  rewrite run_plain by assumption.
  rewrite run_open_js by reflexivity.
  rewrite run_plain by assumption.
  rewrite run_open_hss by discriminate.
  rewrite run_plain by assumption.
  rewrite run_close_hss.
  change ("'" ++ trim ("" ++ c) ++ "'")
    with (String squote (trim c ++ "'")).
  rewrite save_js, (trim_plain c Hc).
  rewrite run_plain by assumption.
  rewrite run_close_js, save_hss.
  rewrite run_plain by assumption.
  change ">>" with (">>" ++ "").
  rewrite run_close_hss, save_root.
  rewrite run_done by reflexivity.
  cbn [bind finish context kind Ctx.toString content].
  set (mid := " + sheath.css.jsExpr(" ++ b ++ "'" ++ c ++ "'" ++ d ++ ") + ").
  assert (HX : (("" ++ a) ++ "' + sheath.css.jsExpr("
                ++ ((("" ++ b) ++ String squote (c ++ "'")) ++ d) ++ ") + '")
               ++ e = a ++ String squote (mid ++ String squote e)).
  { unfold mid. norm_app. reflexivity. }
  rewrite HX, trim_quoted by assumption.
  unfold mid. norm_app. reflexivity.
Qed.

Lemma C1_nested_regions_witness :
  transpile "f" "<<a[b<<c>>d]e>>" =
  Ok "sheath.css.evaluate('a' + sheath.css.jsExpr(b'c'd) + 'e')".
Proof.
  apply (C1_nested_regions "f" "a" "b" "c" "d" "e"); reflexivity.
Defined.

(** C1, as stated, fails: the output holds one [evaluate] call, not two;
    the inner stylesheet region is the bare string literal ['c']. *)
Lemma C1_counterexample :
  transpile "f" "<<a[b<<c>>]>>" =
    Ok "sheath.css.evaluate('a' + sheath.css.jsExpr(b'c') + '')"
  /\ countOccurrences "sheath.css.evaluate("
       "sheath.css.evaluate('a' + sheath.css.jsExpr(b'c') + '')" = 1
  /\ countOccurrences "sheath.css.jsExpr("
       "sheath.css.evaluate('a' + sheath.css.jsExpr(b'c') + '')" = 1.
Proof. split; [reflexivity|]. split; reflexivity. Qed.

(** ** Unterminated regions *)

Lemma run_newlines_root (f : string) (n : nat) :
  forall rest l p ct sl ic,
  run (mkReader f (newlines n ++ rest) l (mkContext RootContext p ct sl ic)) =
  run (mkReader f rest (l + n)
         (mkContext RootContext p (ct ++ newlines n) sl ic)).
Proof.
  induction n as [|n IH]; intros rest l p ct sl ic.
  - simpl. now rewrite app_empty_r, Nat.add_0_r.
  - cbn [newlines append]. rewrite run_step by discriminate.
    assert (Hs : step (mkReader f (String newline (newlines n ++ rest)) l
                                (mkContext RootContext p ct sl ic)) =
                 Ok (mkReader f (newlines n ++ rest) (S l)
                       (mkContext RootContext p (ct ++ String newline "")
                                  sl ic))) by reflexivity.
    rewrite Hs. cbn [bind]. rewrite IH, app_assoc.
    now replace (S l + n) with (l + S n) by lia.
Qed.

(** Line breaks inside a region advance the line and leave the class, the
    parent, the starting line and the bracket counter of the region. *)
Lemma run_newlines_child (f : string) (n : nat) :
  forall rest l k p ct sl ic, k <> RootContext ->
  exists ct',
  run (mkReader f (newlines n ++ rest) l (mkContext k p ct sl ic)) =
  run (mkReader f rest (l + n) (mkContext k p ct' sl ic)).
Proof.
  induction n as [|n IH]; intros rest l k p ct sl ic Hk.
  - exists ct. simpl. now rewrite Nat.add_0_r.
  - cbn [newlines append].
    assert (Hs : exists ct1,
      step (mkReader f (String newline (newlines n ++ rest)) l
                     (mkContext k p ct sl ic)) =
      Ok (mkReader f (newlines n ++ rest) (S l) (mkContext k p ct1 sl ic))).
    { unfold step, Scan.WHITESPACE, Ctx.add, Ctx.ChildContext_WHITESPACE.
      cbn [Reader.peek Reader.next input line context set_cursor filename
           kind content].
      destruct k; [now elim Hk| |];
        (destruct (slice_m1 ct =? " ");
         [exists ct | exists (ct ++ " ")]; reflexivity). }
    destruct Hs as [ct1 Hs].
    destruct (IH rest (S l) k p ct1 sl ic Hk) as [ct' IH'].
    exists ct'. rewrite run_step by discriminate.
    rewrite Hs. cbn [bind]. rewrite IH'.
    now replace (S l + n) with (l + S n) by lia.
Qed.

(** C6: when the input is exhausted while the current context is not the
    root, [transpile] throws an error whose message names the region that
    is open, its closing delimiter and the line on which it began: for a
    stylesheet region the name [Hss expression] and [>>], for a host
    expression [JavaScript expression] and the closing bracket.  The
    input [<<] is the case [n = 0], [m = 0] and an empty [body]. *)
Theorem C6_unterminated_region (f : string) (n m k : nat) (body : string) :
  plain body = true ->
  transpile f (newlines n ++ "<<" ++ newlines m ++ body) =
    Throw (SyntaxError
      ("Hss Error in " ++ f ++ " on line " ++ string_of_nat (1 + n + m)
       ++ String newline
       ("Unexpected end of file. It looks like you forgot the closing "
        ++ String dquote ">>" ++ String dquote " of the "
        ++ "Hss expression" ++ " beginning on line "
        ++ string_of_nat (1 + n) ++ ".")))
  /\ transpile f (newlines n ++ "<<" ++ newlines m ++ "[" ++ newlines k
                  ++ body) =
    Throw (SyntaxError
      ("Hss Error in " ++ f ++ " on line " ++ string_of_nat (1 + n + m + k)
       ++ String newline
       ("Unexpected end of file. It looks like you forgot the closing "
        ++ String dquote "]" ++ String dquote " of the "
        ++ "JavaScript expression" ++ " beginning on line "
        ++ string_of_nat (1 + n + m) ++ ".")))
  /\ (forall inp r,
        run (create f inp) = Ok r -> kind (context r) <> RootContext ->
        transpile f inp =
        Throw (Reader.error r
          ("Unexpected end of file. It looks like you forgot the closing "
           ++ String dquote (Ctx.endDelimiter (context r))
           ++ String dquote " of the " ++ Ctx.name (context r)
           ++ " beginning on line "
           ++ string_of_nat (startingLine (context r)) ++ "."))).
Proof.
  intros Hb. unfold transpile, create. repeat split.
  - rewrite run_newlines_root, run_open_hss by discriminate.
    destruct (run_newlines_child f m body (1 + n) HssContext
                (Some (mkContext RootContext None ("" ++ newlines n) 1 0))
                "" (1 + n) 0) as [ct' H]; [discriminate|].
    rewrite H. rewrite <- (app_empty_r body) at 1.
    rewrite run_plain by assumption.
    rewrite run_done by reflexivity. reflexivity.
  - rewrite run_newlines_root, run_open_hss by discriminate.
    destruct (run_newlines_child f m ("[" ++ newlines k ++ body) (1 + n)
                HssContext
                (Some (mkContext RootContext None ("" ++ newlines n) 1 0))
                "" (1 + n) 0) as [ct' H]; [discriminate|].
    rewrite H. rewrite run_open_js by reflexivity.
    destruct (run_newlines_child f k body (1 + n + m) JsContext
                (Some (mkContext HssContext
                         (Some (mkContext RootContext None
                                          ("" ++ newlines n) 1 0))
                         ct' (1 + n) 0))
                "" (1 + n + m) 0) as [ct2 H2]; [discriminate|].
    rewrite H2. rewrite <- (app_empty_r body) at 1.
    rewrite run_plain by assumption.
    rewrite run_done by reflexivity. reflexivity.
  - intros inp r Hr Hk. rewrite Hr. cbn [bind]. unfold finish.
    destruct (kind (context r)) eqn:E; [now elim Hk| |]; reflexivity.
Qed.

Lemma C6_unterminated_region_witness :
  transpile "f" "<<" =
  Throw (SyntaxError
    ("Hss Error in f on line 1" ++ String newline
     ("Unexpected end of file. It looks like you forgot the closing "
      ++ String dquote ">>" ++ String dquote
      " of the Hss expression beginning on line 1."))).
Proof.
  apply (C6_unterminated_region "f" 0 0 0 ""). reflexivity.
Defined.

(** ** Text of the root context *)

Lemma lineComment_loop_body (body : string) :
  all (fun c => negb (c =? newline)%char) body = true ->
  forall rest acc,
  all (fun c => (c =? newline)%char) (slice0 1 rest) = true ->
  Scan.lineComment_loop (body ++ rest) acc = (acc ++ body, rest).
Proof.
  induction body as [|c body IH]; intros Hb rest acc Hr.
  - rewrite app_empty_r. destruct rest as [|d rest]; [reflexivity|].
    simpl in *. apply andb_prop in Hr. destruct Hr as [Hr _].
    now rewrite Hr.
  - simpl in Hb. apply andb_prop in Hb. destruct Hb as [Hc Hb].
    apply negb_true_iff in Hc. simpl. rewrite Hc.
    rewrite IH by assumption. now rewrite app_assoc.
Qed.

Lemma blockComment_loop_body (body : string) :
  occurs "*/" body = false ->
  forall rest acc ln,
  Scan.blockComment_loop (body ++ "*/" ++ rest) acc ln =
  (acc ++ body, "*/" ++ rest, ln + countNewlines body).
Proof.
  induction body as [|c body IH]; intros Hb rest acc ln.
  - simpl. now rewrite app_empty_r, Nat.add_0_r.
  - cbn [occurs] in Hb. apply orb_false_iff in Hb. destruct Hb as [Hc Hb].
    change (String c body ++ "*/" ++ rest)
      with (String c (body ++ "*/" ++ rest)).
    cbn [Scan.blockComment_loop countNewlines].
    assert (Hs : (slice0 2 (String c (body ++ "*/" ++ rest)) =? "*/")
                 = false).
    { unfold startsWith in Hc. destruct body as [|d body].
      - simpl. destruct (c =? "*")%char; reflexivity.
      - exact Hc. }
    rewrite Hs, IH by assumption. rewrite app_assoc, <- bump_plus.
    reflexivity.
Qed.

(** In the root, one lexeme of [RootText] is appended as it is. *)
Lemma run_root_char (f : string) (c : ascii) (rest : string)
      (l : nat) (p : option Context) (ct : string) (sl ic : nat) :
  quoteRegex c = false -> (c =? "/")%char = false ->
  startsWith "<<" (String c rest) = false ->
  run (mkReader f (String c rest) l (mkContext RootContext p ct sl ic)) =
  run (mkReader f rest (Reader.bump c l)
         (mkContext RootContext p (ct ++ String c "") sl ic)).
Proof.
  intros Hq Hs Ho. rewrite run_step by discriminate.
  assert (H : step (mkReader f (String c rest) l
                             (mkContext RootContext p ct sl ic)) =
              Ok (mkReader f rest (Reader.bump c l)
                    (mkContext RootContext p (ct ++ String c "") sl ic))).
  { unfold step. cbn [Reader.peek input]. rewrite Hq, Hs.
    destruct (whitespaceRegex c); [reflexivity|].
    unfold Ctx.childContextStart, Reader.peekN.
    cbn [context kind input]. unfold startsWith in Ho.
    cbn [String.length] in Ho. rewrite Ho. reflexivity. }
  now rewrite H.
Qed.

Lemma run_root_slash (f : string) (rest : string)
      (l : nat) (p : option Context) (ct : string) (sl ic : nat) :
  startsWith "//" (String "/" rest) = false ->
  startsWith "/*" (String "/" rest) = false ->
  run (mkReader f (String "/" rest) l (mkContext RootContext p ct sl ic)) =
  run (mkReader f rest l (mkContext RootContext p (ct ++ "/") sl ic)).
Proof.
  intros H1 H2. rewrite run_step by discriminate.
  assert (H : step (mkReader f (String "/" rest) l
                             (mkContext RootContext p ct sl ic)) =
              Ok (mkReader f rest l
                    (mkContext RootContext p (ct ++ "/") sl ic))).
  { unfold step, Scan.COMMENT, Reader.peekN.
    cbn [Reader.peek input quoteRegex].
    unfold startsWith in H1, H2. cbn [String.length] in H1, H2.
    change (quoteRegex "/") with false. change ("/" =? "/")%char with true.
    cbv iota. rewrite H1, H2. reflexivity. }
  now rewrite H.
Qed.

Lemma run_root_string (f : string) (q : ascii) (body rest : string)
      (l : nat) (p : option Context) (ct : string) (sl ic : nat) :
  quoteRegex q = true -> all (bodyChar q) body = true ->
  run (mkReader f (String q (body ++ String q rest)) l
                (mkContext RootContext p ct sl ic)) =
  run (mkReader f rest (l + countNewlines body)
         (mkContext RootContext p
                    (ct ++ String q (body ++ String q "")) sl ic)).
Proof.
  intros Hq Hb. rewrite run_step by discriminate.
  unfold step, Scan.STRING. cbn [Reader.peek input]. rewrite Hq.
  rewrite readString_closed by assumption. reflexivity.
Qed.

Lemma run_root_lineComment (f : string) (body rest : string)
      (l : nat) (p : option Context) (ct : string) (sl ic : nat) :
  all (fun c => negb (c =? newline)%char) body = true ->
  all (fun c => (c =? newline)%char) (slice0 1 rest) = true ->
  run (mkReader f ("//" ++ body ++ rest) l
                (mkContext RootContext p ct sl ic)) =
  run (mkReader f rest l
         (mkContext RootContext p (ct ++ "//" ++ body) sl ic)).
Proof.
  intros Hb Hr. rewrite run_step by discriminate.
  assert (H : step (mkReader f ("//" ++ body ++ rest) l
                             (mkContext RootContext p ct sl ic)) =
              Ok (mkReader f rest l
                    (mkContext RootContext p (ct ++ "//" ++ body) sl ic))).
  { unfold step, Scan.COMMENT, Scan.lineComment, Reader.peekN.
    cbn [Reader.peek input append slice0 line context].
    change (quoteRegex "/") with false. change ("/" =? "/")%char with true.
    change ("//" =? "//") with true. cbv iota.
    change (String "/" (String "/" (body ++ rest)))
      with (("//" ++ body) ++ rest).
    rewrite lineComment_loop_body; [reflexivity| |assumption].
    exact Hb. }
  now rewrite H.
Qed.

Lemma run_root_blockComment (f : string) (body rest : string)
      (l : nat) (p : option Context) (ct : string) (sl ic : nat) :
  occurs "*/" body = false ->
  run (mkReader f ("/*" ++ body ++ "*/" ++ rest) l
                (mkContext RootContext p ct sl ic)) =
  run (mkReader f rest (l + countNewlines body)
         (mkContext RootContext p (ct ++ "/*" ++ body ++ "*/") sl ic)).
Proof.
  intros Hb. rewrite run_step by discriminate.
  assert (H : step (mkReader f ("/*" ++ body ++ "*/" ++ rest) l
                             (mkContext RootContext p ct sl ic)) =
              Ok (mkReader f rest (l + countNewlines body)
                    (mkContext RootContext p
                               (ct ++ "/*" ++ body ++ "*/") sl ic))).
  { unfold step, Scan.COMMENT, Scan.blockComment, Reader.peekN.
    change ("/*" ++ body ++ "*/" ++ rest)
      with (String "/" (String "*" (body ++ "*/" ++ rest))).
    cbn [Reader.peek Reader.next input slice0 line context
         set_cursor filename js_plus js_str].
    change (quoteRegex "/") with false. change ("/" =? "/")%char with true.
    change ("/*" =? "//") with false. change ("/*" =? "/*") with true.
    cbv iota.
    change (Reader.bump "*" (Reader.bump "/" l)) with l.
    rewrite blockComment_loop_body by assumption.
    cbn [Reader.next input append line set_cursor filename context
         js_plus js_str Ctx.add kind].
    unfold Ctx.append. cbn [kind content set_content parentContext
                            startingLine ignoreCount].
    change (Reader.bump "/" (Reader.bump "*" (l + countNewlines body)))
      with (l + countNewlines body).
    reflexivity. }
  now rewrite H.
Qed.

Lemma run_root_text (f : string) (inp : string) :
  RootText inp ->
  forall l p ct sl ic, exists l',
  run (mkReader f inp l (mkContext RootContext p ct sl ic)) =
  Ok (mkReader f "" l' (mkContext RootContext p (ct ++ inp) sl ic)).
Proof.
  induction 1 as [ | c rest Hq Hs Ho _ IH | rest H1 H2 _ IH
                   | q body rest Hq Hb _ IH | body rest Hb Hr _ IH
                   | body rest Hb _ IH ]; intros l p ct sl ic.
  - exists l. rewrite run_done by reflexivity. now rewrite app_empty_r.
  - rewrite run_root_char by assumption.
    destruct (IH (Reader.bump c l) p (ct ++ String c "") sl ic) as [l' E].
    exists l'. rewrite E. now norm_app.
  - rewrite run_root_slash by assumption.
    destruct (IH l p (ct ++ "/") sl ic) as [l' E].
    exists l'. rewrite E. now norm_app.
  - rewrite run_root_string by assumption.
    destruct (IH (l + countNewlines body) p
                 (ct ++ String q (body ++ String q "")) sl ic) as [l' E].
    exists l'. rewrite E. now norm_app.
  - rewrite run_root_lineComment by assumption.
    destruct (IH l p (ct ++ "//" ++ body) sl ic) as [l' E].
    exists l'. rewrite E. now norm_app.
  - rewrite run_root_blockComment by assumption.
    destruct (IH (l + countNewlines body) p
                 (ct ++ "/*" ++ body ++ "*/") sl ic) as [l' E].
    exists l'. rewrite E. now norm_app.
Qed.

(** C3, as amended: an input without an embedded region that is made of
    characters that do not start [<<], a [/] that starts no comment,
    whitespace, line comments, closed block comments and closed string
    literals without a backslash (and without a line break unless between
    backticks) is returned by [transpile] as it is: the root keeps
    comments and such literals unchanged. *)
Theorem C3_root_text_unchanged (f inp : string) :
  RootText inp -> transpile f inp = Ok inp.
Proof.
  intros H. unfold transpile, create.
  destruct (run_root_text f inp H 1 None "" 1 0) as [l' E].
  rewrite E. reflexivity.
Qed.

Lemma C3_root_text_unchanged_witness :
  transpile "f" "a /* c */ b 'x' // y" = Ok "a /* c */ b 'x' // y".
Proof.
  apply C3_root_text_unchanged.
  apply RT_char; [reflexivity..|].
  apply RT_char; [reflexivity..|].
  apply (RT_blockComment " c " " b 'x' // y"); [reflexivity|].
  apply RT_char; [reflexivity..|].
  apply RT_char; [reflexivity..|].
  apply RT_char; [reflexivity..|].
  apply (RT_string "'" "x" " // y"); [reflexivity..|].
  apply RT_char; [reflexivity..|].
  apply (RT_lineComment " y" ""); [reflexivity..|].
  apply RT_end.
Defined.

(** C3, as stated, fails: the input holds no [<<], and the output has
    lost the backslash of the string literal. *)
Lemma C3_counterexample :
  occurs "<<" "'a\'b'" = false
  /\ transpile "f" "'a\'b'" = Ok "'a'b'"
  /\ "'a'b'" <> "'a\'b'".
Proof.
  split; [reflexivity|]. split; [reflexivity | discriminate].
Qed.

(** ** Tokens inside a host expression *)

Lemma next_shape (r : Reader) :
  exists inp l, snd (Reader.next r) = set_cursor r inp l.
Proof.
  destruct r as [f inp l c]. destruct inp as [|a inp].
  - exists "", l. reflexivity.
  - exists inp, (Reader.bump a l). reflexivity.
Qed.

(** A comment changes the cursor only, in a region that is not the root. *)
Lemma comment_discarded (r : Reader) :
  kind (context r) <> RootContext ->
  (exists inp l, Scan.lineComment r = set_cursor r inp l) /\
  (exists inp l, Scan.blockComment r = set_cursor r inp l).
Proof.
  intros Hk.
  assert (Hadd : forall str,
            Ctx.add (context r) str (Some Token.COMMENT) = context r).
  { intros str. unfold Ctx.add. destruct (kind (context r));
      [now elim Hk | reflexivity | reflexivity]. }
  split.
  - unfold Scan.lineComment.
    destruct (Scan.lineComment_loop (input r) "") as [str rest].
    exists rest, (line r). rewrite Hadd. now destruct r.
  - unfold Scan.blockComment.
    destruct (next_shape r) as [i1 [l1 E1]].
    destruct (Reader.next r) as [o1 r1]. simpl in E1. subst r1.
    destruct (next_shape (set_cursor r i1 l1)) as [i2 [l2 E2]].
    destruct (Reader.next (set_cursor r i1 l1)) as [o2 r2].
    simpl in E2. subst r2.
    destruct (Scan.blockComment_loop _ _ _) as [[str rest] ln].
    destruct (next_shape
                (set_cursor (set_cursor (set_cursor r i1 l1) i2 l2) rest ln))
      as [i3 [l3 E3]].
    destruct (Reader.next _) as [o3 r4]. simpl in E3. subst r4.
    match goal with
    | |- context [Reader.next ?x] =>
        destruct (next_shape x) as [i4 [l4 E4]];
        destruct (Reader.next x) as [o4 r5]
    end.
    simpl in E4. subst r5. exists i4, l4.
    destruct r as [f inp l c]. simpl in *. now rewrite Hadd.
Qed.

Lemma startsWith_two (a b : ascii) (s : string) :
  startsWith (String a (String b "")) s = true ->
  exists rest, s = String a (String b rest).
Proof.
  unfold startsWith. destruct s as [|a' [|b' rest]]; simpl;
    try discriminate.
  - destruct (a' =? a)%char; discriminate.
  - destruct (a' =? a)%char eqn:Ea; [|discriminate].
    destruct (b' =? b)%char eqn:Eb; [|discriminate].
    apply Ascii.eqb_eq in Ea, Eb. subst. intros _. now exists rest.
Qed.

(** C10, as amended: in a host-expression region the brackets inside a
    string or comment token never change the bracket counter and never
    close the region.  A string token is appended whole, a comment token
    is discarded whole, and the counter is incremented only when the text
    appended is exactly the one character that opens a bracket; the
    driver tests for a string and for a comment before it tests for the
    closing delimiter. *)
Theorem C10_tokens_leave_counter
    (f : string) (l : nat) (c : Context)
    (q : ascii) (sinp tok rest : string) (ln : nat) (cinp : string) :
  kind c = JsContext ->
  quoteRegex q = true ->
  Scan.readString (mkReader f (String q sinp) l c) = Ok (tok, rest, ln) ->
  startsWith "//" cinp || startsWith "/*" cinp = true ->
  step (mkReader f (String q sinp) l c) =
    Ok (mkReader f rest ln
          (mkContext JsContext (parentContext c) (content c ++ tok)
                     (startingLine c) (ignoreCount c)))
  /\ (exists rest' l', step (mkReader f cinp l c) = Ok (mkReader f rest' l' c))
  /\ (forall str,
        ignoreCount (Ctx.add c str None) =
        if str =? "[" then S (ignoreCount c) else ignoreCount c).
Proof.
  intros Hk Hq Hr Hc. repeat split.
  - unfold step, Scan.STRING. cbn [Reader.peek input]. rewrite Hq, Hr.
    cbn [context]. unfold Ctx.add, Ctx.append, Ctx.beforeAdd. rewrite Hk.
    assert (Ht : (tok =? "[") = false).
    { unfold Scan.readString in Hr.
      cbn [Reader.next input line set_cursor filename context] in Hr.
      apply (STRING_loop_spec f q _ _ _ _ _ _ _ (le_n _)) in Hr.
      destruct Hr as [cons [_ [_ H3]]].
      rewrite (H3 (quote_not_backslash q Hq)). simpl.
      destruct (q =? "[")%char eqn:E; [|reflexivity].
      apply Ascii.eqb_eq in E. subst q. discriminate Hq. }
    rewrite Ht. unfold set_content, set_cursor, set_context. simpl.
    now rewrite Hk.
  - assert (Hne : kind c <> RootContext) by (rewrite Hk; discriminate).
    destruct (comment_discarded (mkReader f cinp l c) Hne) as [Hl Hb].
    apply orb_true_iff in Hc. destruct Hc as [Hc|Hc];
      pose proof Hc as Hc'; apply startsWith_two in Hc;
      destruct Hc as [x Hx]; unfold step, Scan.COMMENT, Reader.peekN;
      unfold startsWith in Hc'; cbn [String.length] in Hc';
      cbn [input]; rewrite Hx in *; cbn [Reader.peek input].
    + change (quoteRegex "/") with false.
      change ("/" =? "/")%char with true. cbv iota.
      cbn [slice0]. change ("//" =? "//") with true. cbv iota.
      destruct Hl as [inp' [l' E]]. rewrite E. now exists inp', l'.
    + change (quoteRegex "/") with false.
      change ("/" =? "/")%char with true. cbv iota.
      cbn [slice0]. change ("/*" =? "//") with false.
      change ("/*" =? "/*") with true. cbv iota.
      destruct Hb as [inp' [l' E]]. rewrite E. now exists inp', l'.
  - intros str. unfold Ctx.add, Ctx.append, Ctx.beforeAdd. rewrite Hk.
    destruct (str =? "["); reflexivity.
Qed.

Lemma C10_tokens_leave_counter_witness :
  step (mkReader "f" "'[]]' + 1]" 1 (mkContext JsContext None "a" 1 2)) =
    Ok (mkReader "f" " + 1]" 1 (mkContext JsContext None "a'[]]'" 1 2))
  /\ exists rest' l',
       step (mkReader "f" "/*]*/]" 1 (mkContext JsContext None "a" 1 2)) =
       Ok (mkReader "f" rest' l' (mkContext JsContext None "a" 1 2)).
Proof.
  destruct (C10_tokens_leave_counter "f" 1
              (mkContext JsContext None "a" 1 2)
              squote "[]]' + 1]" "'[]]'" " + 1]" 1 "/*]*/]"
              eq_refl eq_refl eq_refl eq_refl)
    as [H1 [H2 _]].
  split; [exact H1 | exact H2].
Defined.

(** C10, as stated, fails: a comment token is not appended to a host
    expression; the region keeps the content it had. *)
Lemma C10_counterexample :
  step (mkReader "f" "/*]*/]" 1 (mkContext JsContext None "a" 1 0)) =
    Ok (mkReader "f" "]" 1 (mkContext JsContext None "a" 1 0))
  /\ "a" <> "a" ++ "/*]*/"
  /\ transpile "f" "<<[a/*]*/]>>" =
     Ok "sheath.css.evaluate('' + sheath.css.jsExpr(a) + '')".
Proof.
  split; [reflexivity|]. split; [discriminate | reflexivity].
Qed.

(** ** The cursor: consumed text, line counter and file name *)

Lemma countNewlines_app (a b : string) :
  countNewlines (a ++ b) = countNewlines a + countNewlines b.
Proof.
  induction a as [|c a IH]; simpl; [reflexivity|].
  rewrite IH. unfold Reader.bump. destruct (c =? newline)%char; reflexivity.
Qed.

Lemma adv_intro (r r' : Reader) (consumed : string) :
  filename r' = filename r -> input r = consumed ++ input r' ->
  line r' = line r + countNewlines consumed -> Advances r r'.
Proof. intros H1 H2 H3. split; [assumption|]. now exists consumed. Qed.

Lemma adv_refl (r : Reader) : Advances r r.
Proof. apply (adv_intro r r ""); simpl; auto. Qed.

Lemma adv_trans (r1 r2 r3 : Reader) :
  Advances r1 r2 -> Advances r2 r3 -> Advances r1 r3.
Proof.
  intros [F1 [c1 [I1 L1]]] [F2 [c2 [I2 L2]]].
  apply (adv_intro r1 r3 (c1 ++ c2)).
  - congruence.
  - rewrite I1, I2. now rewrite app_assoc.
  - rewrite L2, L1, countNewlines_app. lia.
Qed.

(** Only the cursor and the file name matter. *)
Lemma adv_cursor_l (r1 r2 r' : Reader) :
  filename r1 = filename r2 -> input r1 = input r2 -> line r1 = line r2 ->
  Advances r2 r' -> Advances r1 r'.
Proof.
  intros F I L [F2 [c [I2 L2]]]. apply (adv_intro r1 r' c); congruence.
Qed.

Lemma adv_cursor_r (r r1 r2 : Reader) :
  filename r1 = filename r2 -> input r1 = input r2 -> line r1 = line r2 ->
  Advances r r2 -> Advances r r1.
Proof.
  intros F I L [F2 [c [I2 L2]]]. apply (adv_intro r r1 c); congruence.
Qed.

Lemma adv_next (r : Reader) : Advances r (snd (Reader.next r)).
Proof.
  destruct r as [f inp l c]. destruct inp as [|a inp].
  - apply adv_refl.
  - apply (adv_intro _ _ (String a "")); simpl; auto.
    unfold Reader.bump. destruct (a =? newline)%char; lia.
Qed.

Lemma adv_discard (n : nat) : forall r, Advances r (Reader.discard n r).
Proof.
  induction n as [|n IH]; intros r; simpl; [apply adv_refl|].
  eapply adv_trans; [apply adv_next | apply IH].
Qed.

Lemma lineComment_loop_line (inp : string) : forall acc str rest,
  Scan.lineComment_loop inp acc = (str, rest) ->
  exists body, inp = body ++ rest /\ countNewlines body = 0.
Proof.
  induction inp as [|c inp IH]; simpl; intros acc str rest H.
  - inversion H; subst. now exists "".
  - destruct (c =? newline)%char eqn:E.
    + inversion H; subst. now exists "".
    + apply IH in H. destruct H as [body [H1 H2]].
      exists (String c body). simpl. rewrite H1 at 1.
      split; [reflexivity|]. unfold Reader.bump. now rewrite E.
Qed.

Lemma blockComment_loop_line (inp : string) : forall acc ln str rest ln',
  Scan.blockComment_loop inp acc ln = (str, rest, ln') ->
  exists body, inp = body ++ rest /\ ln' = ln + countNewlines body.
Proof.
  induction inp as [|c inp IH]; intros acc ln str rest ln' H.
  - simpl in H. inversion H; subst. exists "". simpl. auto.
  - cbn [Scan.blockComment_loop] in H.
    destruct (slice0 2 (String c inp) =? "*/").
    + inversion H; subst. exists "". simpl. auto.
    + apply IH in H. destruct H as [body [H1 H2]].
      exists (String c body). simpl. rewrite H1 at 1.
      split; [reflexivity|]. rewrite H2. apply bump_plus.
Qed.

Lemma STRING_loop_line (f : string) (t : ascii) :
  forall n inp str ln tok rest ln',
  String.length inp <= n ->
  Scan.STRING_loop f t inp str ln = Ok (tok, rest, ln') ->
  exists consumed,
    inp = consumed ++ rest /\ ln' = ln + countNewlines consumed.
Proof.
  induction n as [|n IH]; intros inp str ln tok rest ln' Hn H;
    destruct inp as [|c inp]; cbn [Scan.STRING_loop] in H;
    try discriminate; simpl in Hn; [lia|].
  destruct (c =? t)%char.
  { inversion H; subst. exists (String c ""). simpl.
    split; [reflexivity|]. unfold Reader.bump.
    destruct (c =? newline)%char; lia. }
  destruct (c =? backslash)%char eqn:Ecb.
  { destruct inp as [|d inp]; [discriminate|].
    apply IH in H; [|simpl in Hn; lia].
    destruct H as [cons [H1 H2]].
    exists (String c (String d cons)). simpl. rewrite H1 at 1.
    split; [reflexivity|]. rewrite H2.
    assert (Hc : (c =? newline)%char = false).
    { apply Ascii.eqb_eq in Ecb. now subst c. }
    unfold Reader.bump at 2. rewrite Hc. apply bump_plus. }
  destruct (c =? newline)%char eqn:Enl.
  - destruct (negb (t =? backtick)%char); [discriminate|].
    apply IH in H; [|lia]. destruct H as [cons [H1 H2]].
    exists (String c cons). simpl. rewrite H1 at 1.
    split; [reflexivity|]. rewrite H2. unfold Reader.bump. rewrite Enl. lia.
  - apply IH in H; [|lia]. destruct H as [cons [H1 H2]].
    exists (String c cons). simpl. rewrite H1 at 1.
    split; [reflexivity|]. rewrite H2. unfold Reader.bump. rewrite Enl. lia.
Qed.

Lemma adv_lineComment (r : Reader) : Advances r (Scan.lineComment r).
Proof.
  unfold Scan.lineComment.
  destruct (Scan.lineComment_loop (input r) "") as [str rest] eqn:E.
  apply lineComment_loop_line in E. destruct E as [body [E1 E2]].
  apply (adv_intro _ _ body); simpl; [reflexivity | assumption | lia].
Qed.

Lemma adv_blockComment (r : Reader) : Advances r (Scan.blockComment r).
Proof.
  unfold Scan.blockComment.
  pose proof (adv_next r) as A1. destruct (Reader.next r) as [o1 r1].
  pose proof (adv_next r1) as A2. destruct (Reader.next r1) as [o2 r2].
  simpl in A1, A2.
  destruct (Scan.blockComment_loop (input r2) (js_plus o1 o2) (line r2))
    as [[str rest] ln] eqn:E.
  apply blockComment_loop_line in E. destruct E as [body [E1 E2]].
  assert (A3 : Advances r2 (set_cursor r2 rest ln))
    by (apply (adv_intro _ _ body); simpl; auto).
  pose proof (adv_next (set_cursor r2 rest ln)) as A4.
  destruct (Reader.next (set_cursor r2 rest ln)) as [o3 r4].
  pose proof (adv_next r4) as A5. destruct (Reader.next r4) as [o4 r5].
  simpl in A4, A5.
  apply (adv_cursor_r _ _ r5); try reflexivity.
  eauto using adv_trans.
Qed.

Lemma adv_readString (r : Reader) (tok rest : string) (ln : nat) :
  Scan.readString r = Ok (tok, rest, ln) -> Advances r (set_cursor r rest ln).
Proof.
  unfold Scan.readString. destruct r as [f inp l c].
  destruct inp as [|q inp]; simpl.
  - intros H. inversion H; subst. apply adv_refl.
  - intros H. apply (STRING_loop_line f q _ _ _ _ _ _ _ (le_n _)) in H.
    destruct H as [cons [H1 H2]].
    apply (adv_intro _ _ (String q cons)); simpl; auto.
    + now rewrite H1.
    + rewrite H2. apply bump_plus.
Qed.

Lemma adv_childContextStart (r : Reader) :
  Advances r (snd (Ctx.childContextStart r)).
Proof.
  unfold Ctx.childContextStart.
  destruct (kind (context r)).
  - destruct (Reader.peekN 2 r =? "<<"); [apply adv_discard|apply adv_refl].
  - destruct (Reader.peek r) as [c|]; [|apply adv_refl].
    destruct (c =? "[")%char; [apply adv_discard|apply adv_refl].
  - destruct (Reader.peekN 2 r =? "<<"); [apply adv_discard|apply adv_refl].
Qed.

Lemma adv_contextEnd (r : Reader) : Advances r (snd (Ctx.contextEnd r)).
Proof.
  unfold Ctx.contextEnd.
  destruct (kind (context r)).
  - apply adv_refl.
  - destruct (Reader.peekN 2 r =? _); [apply adv_discard|apply adv_refl].
  - destruct (js_str (Reader.peek r) =? _); [|apply adv_refl].
    destruct (negb _); [|apply adv_discard].
    pose proof (adv_next r) as A. destruct (Reader.next r) as [o r1].
    simpl in *. apply (adv_cursor_r _ _ r1); auto.
Qed.

(** One round moves the cursor forward over text of the input and keeps
    the line counter in step with it. *)
Lemma step_advances (r r' : Reader) : step r = Ok r' -> Advances r r'.
Proof.
  unfold step. destruct (Reader.peek r) as [c|];
    [|intros H; inversion H; apply adv_refl].
  destruct (quoteRegex c).
  { unfold Scan.STRING.
    destruct (Scan.readString r) as [[[tok rest] ln]|e] eqn:E;
      [|discriminate].
    intros H. inversion H; subst. apply adv_readString in E.
    apply (adv_cursor_r _ _ (set_cursor r rest ln)); auto. }
  destruct (c =? "/")%char.
  { intros H. inversion H; subst. unfold Scan.COMMENT.
    destruct (Reader.peekN 2 r =? "//"); [apply adv_lineComment|].
    destruct (Reader.peekN 2 r =? "/*"); [apply adv_blockComment|].
    pose proof (adv_next r) as A. destruct (Reader.next r) as [o r1].
    simpl in *. apply (adv_cursor_r _ _ r1); auto. }
  destruct (whitespaceRegex c).
  { intros H. inversion H; subst. unfold Scan.WHITESPACE.
    pose proof (adv_next r) as A. destruct (Reader.next r) as [o r1].
    simpl in *. apply (adv_cursor_r _ _ r1); auto. }
  pose proof (adv_childContextStart r) as A1.
  destruct (Ctx.childContextStart r) as [started r1]. simpl in A1.
  destruct started.
  { intros H. inversion H; subst.
    apply (adv_cursor_r _ _ r1); auto. }
  pose proof (adv_contextEnd r1) as A2.
  destruct (Ctx.contextEnd r1) as [ended r2]. simpl in A2.
  destruct ended.
  { unfold endContext. destruct (parentContext (context r2)); [|discriminate].
    intros H. inversion H; subst.
    apply (adv_cursor_r _ _ r2); eauto using adv_trans. }
  pose proof (adv_next r2) as A3. destruct (Reader.next r2) as [o r3].
  simpl in A3. intros H. inversion H; subst.
  apply (adv_cursor_r _ _ r3); eauto using adv_trans.
Qed.

Lemma reachable_advances (f inp : string) (r : Reader) :
  Reachable f inp r -> Advances (create f inp) r.
Proof.
  induction 1 as [|r r' _ IH Hs]; [apply adv_refl|].
  eapply adv_trans; [exact IH | now apply step_advances].
Qed.

Lemma loop_reachable (f inp : string) (n : nat) : forall r r',
  Reachable f inp r -> loop n r = Ok r' ->
  Reachable f inp r' /\ input r' = "".
Proof.
  induction n as [|n IH]; intros r r' Hr H; simpl in H.
  - destruct r as [f0 i l c]. destruct i; simpl in H; [|discriminate].
    inversion H; subst. auto.
  - destruct (Reader.peek r) eqn:Hp.
    + destruct (step r) as [r1|e] eqn:Hs; [|discriminate]. simpl in H.
      apply (IH r1 r'); [|assumption]. now apply (Reach_step _ _ r).
    + inversion H; subst. split; [assumption|].
      destruct r' as [f0 i l c]. destruct i; [reflexivity|discriminate].
Qed.

Lemma line_counter_aux (f inp : string) (r : Reader) :
  Reachable f inp r ->
  filename r = f /\ (input r = "" -> line r = 1 + countNewlines inp).
Proof.
  intros H. apply reachable_advances in H.
  destruct H as [F [consumed [I L]]]. simpl in F, I, L.
  split; [assumption|].
  intros E. rewrite E, app_empty_r in I. now subst consumed.
Qed.

(** The line counter is the line of the next character: one more than the
    line breaks of the text consumed so far, after any number of rounds;
    when the input is used up it is the last line of the file.  The file
    name never changes. *)
Theorem line_counter_invariant (f inp : string) (r : Reader) :
  Reachable f inp r ->
  filename r = f
  /\ (exists consumed,
        inp = consumed ++ input r /\ line r = 1 + countNewlines consumed)
  /\ (input r = "" -> line r = 1 + countNewlines inp).
Proof.
  intros H. apply reachable_advances in H.
  destruct H as [F [consumed [I L]]]. simpl in F, I, L.
  split; [assumption|]. split; [now exists consumed|].
  intros E. rewrite E, app_empty_r in I. now subst consumed.
Qed.

Lemma line_counter_invariant_witness :
  let r := mkReader "f" "b" 2
             (mkContext HssContext
                (Some (mkContext RootContext None
                                 ("a" ++ String newline "") 1 0)) "" 2 0) in
  exists consumed,
    "a" ++ String newline "<<b" = consumed ++ input r
    /\ line r = 1 + countNewlines consumed.
Proof.
  intros r.
  assert (H : Reachable "f" ("a" ++ String newline "<<b") r).
  { eapply Reach_step; [eapply Reach_step; [eapply Reach_step;
      [apply Reach_start | reflexivity] | reflexivity] | reflexivity]. }
  exact (proj1 (proj2 (line_counter_invariant _ _ _ H))).
Defined.

(** ** The chain of contexts *)

Lemma wn_same (c c' : Context) :
  kind c' = kind c -> parentContext c' = parentContext c ->
  WellNested c -> WellNested c'.
Proof.
  intros K P H. inversion H as [c0 Hk Hp | c0 p Hk Hp Hpk Hw
                               | c0 p Hk Hp Hpk Hw]; subst c0.
  - apply WN_root; congruence.
  - apply (WN_hss c' p); congruence.
  - apply (WN_js c' p); congruence.
Qed.

Lemma add_shape (c : Context) (str : string) (t : option Token.type) :
  kind (Ctx.add c str t) = kind c /\
  parentContext (Ctx.add c str t) = parentContext c.
Proof.
  unfold Ctx.add, Ctx.ChildContext_WHITESPACE, Ctx.HssContext_STRING,
    Ctx.append, Ctx.beforeAdd.
  destruct c as [k p ct sl ic]. simpl.
  destruct t as [[| |]|]; destruct k; simpl;
    repeat match goal with
    | |- context [if ?b then _ else _] => destruct b; simpl
    | |- context [match ?s with "" => _ | String _ _ => _ end] =>
        destruct s; simpl
    end; auto.
Qed.

Lemma next_ctx (r : Reader) : context (snd (Reader.next r)) = context r.
Proof. destruct r as [f inp l c]. destruct inp; reflexivity. Qed.

Lemma discard_ctx (n : nat) : forall r,
  context (Reader.discard n r) = context r.
Proof.
  induction n as [|n IH]; intros r; simpl; [reflexivity|].
  now rewrite IH, next_ctx.
Qed.

Lemma COMMENT_ctx (r : Reader) :
  exists str t, context (Scan.COMMENT r) = Ctx.add (context r) str t.
Proof.
  unfold Scan.COMMENT.
  destruct (Reader.peekN 2 r =? "//").
  { unfold Scan.lineComment.
    destruct (Scan.lineComment_loop _ _) as [str rest].
    exists str, (Some Token.COMMENT). reflexivity. }
  destruct (Reader.peekN 2 r =? "/*").
  { unfold Scan.blockComment.
    pose proof (next_ctx r) as C1. destruct (Reader.next r) as [o1 r1].
    pose proof (next_ctx r1) as C2. destruct (Reader.next r1) as [o2 r2].
    destruct (Scan.blockComment_loop _ _ _) as [[str rest] ln].
    pose proof (next_ctx (set_cursor r2 rest ln)) as C3.
    destruct (Reader.next (set_cursor r2 rest ln)) as [o3 r4].
    pose proof (next_ctx r4) as C4. destruct (Reader.next r4) as [o4 r5].
    cbn [snd context set_context set_cursor] in *.
    exists (str ++ js_plus o3 o4), (Some Token.COMMENT).
    now rewrite C4, C3, C2, C1. }
  pose proof (next_ctx r) as C1. destruct (Reader.next r) as [o1 r1].
  cbn [snd context set_context] in *.
  exists (js_str o1), None. now rewrite C1.
Qed.

Lemma childContextStart_ctx (r : Reader) :
  context (snd (Ctx.childContextStart r)) = context r.
Proof.
  unfold Ctx.childContextStart.
  destruct (kind (context r));
    repeat match goal with
    | |- context [if ?b then _ else _] => destruct b
    | |- context [match ?o with Some _ => _ | None => _ end] => destruct o
    end; simpl; rewrite ?next_ctx; reflexivity.
Qed.

(** [contextEnd()] answers true only in a region, which it leaves as it
    is; when it answers false the class and the parent are the same. *)
Lemma contextEnd_ctx (r : Reader) :
  (fst (Ctx.contextEnd r) = true ->
     context (snd (Ctx.contextEnd r)) = context r /\
     kind (context r) <> RootContext) /\
  kind (context (snd (Ctx.contextEnd r))) = kind (context r) /\
  parentContext (context (snd (Ctx.contextEnd r))) =
    parentContext (context r).
Proof.
  unfold Ctx.contextEnd.
  destruct (kind (context r)) eqn:K.
  - simpl. rewrite K. repeat split; auto. discriminate.
  - destruct (Reader.peekN 2 r =? _); cbn [fst snd];
      rewrite ?discard_ctx, ?K; repeat split; auto; discriminate.
  - destruct (js_str (Reader.peek r) =? _); [|simpl; rewrite K;
      repeat split; auto; discriminate].
    destruct (negb _).
    + pose proof (next_ctx r) as C. destruct (Reader.next r) as [o r1].
      cbn [fst snd context set_context set_ignoreCount kind parentContext].
      destruct (add_shape (context r) (js_str o) None) as [A B].
      rewrite A, B, K. repeat split; auto; discriminate.
    + cbn [fst snd]. rewrite discard_ctx, K.
      repeat split; auto; discriminate.
Qed.

(** A round keeps the chain of contexts well nested. *)
Lemma step_wn (r r' : Reader) :
  step r = Ok r' -> WellNested (context r) -> WellNested (context r').
Proof.
  unfold step. destruct (Reader.peek r) as [c|];
    [|intros H; now inversion H].
  destruct (quoteRegex c).
  { unfold Scan.STRING.
    destruct (Scan.readString r) as [[[tok rest] ln]|e]; [|discriminate].
    intros H W. inversion H; subst. simpl.
    destruct (add_shape (context r) tok (Some Token.STRING)) as [A B].
    now apply (wn_same (context r)). }
  destruct (c =? "/")%char.
  { intros H W. inversion H; subst.
    destruct (COMMENT_ctx r) as [str [t E]]. rewrite E.
    destruct (add_shape (context r) str t) as [A B].
    now apply (wn_same (context r)). }
  destruct (whitespaceRegex c).
  { intros H W. inversion H; subst. unfold Scan.WHITESPACE.
    pose proof (next_ctx r) as C. destruct (Reader.next r) as [o r1].
    simpl in *. rewrite C.
    destruct (add_shape (context r) (js_str o) (Some Token.WHITESPACE))
      as [A B].
    now apply (wn_same (context r)). }
  pose proof (childContextStart_ctx r) as C1.
  destruct (Ctx.childContextStart r) as [started r1]. simpl in C1.
  destruct started.
  { intros H W. inversion H; subst. unfold newContext, Ctx.newChildContext.
    simpl. rewrite C1.
    destruct (kind (context r)) eqn:K.
    - apply (WN_hss _ (context r)); auto. rewrite K. discriminate.
    - apply (WN_js _ (context r)); auto.
    - apply (WN_hss _ (context r)); auto. rewrite K. discriminate. }
  pose proof (contextEnd_ctx r1) as [C2 [C3 C4]].
  destruct (Ctx.contextEnd r1) as [ended r2]. simpl in C2, C3, C4.
  destruct ended.
  { destruct (C2 eq_refl) as [E Hk]. rewrite C1 in *.
    unfold endContext. rewrite E.
    destruct (parentContext (context r)) as [p|] eqn:P; [|discriminate].
    intros H W. inversion H; subst. simpl.
    assert (Wp : WellNested p).
    { inversion W as [c0 Hk0 Hp0 | c0 p0 Hk0 Hp0 Hpk Hw
                     | c0 p0 Hk0 Hp0 Hpk Hw]; subst c0; congruence. }
    unfold Ctx.childContextEnd, Ctx.saveChildContent.
    destruct (kind p) eqn:Kp;
      match goal with
      | |- WellNested (Ctx.add ?c ?s ?t) =>
          destruct (add_shape c s t) as [A B]; now apply (wn_same p)
      end. }
  pose proof (next_ctx r2) as C5. destruct (Reader.next r2) as [o r3].
  cbn [snd] in C5. intros H W. inversion H; subst.
  cbn [context set_context]. rewrite C5.
  destruct (add_shape (context r2) (js_str o) None) as [A B].
  change (Ctx.add (context r2) (js_str o) None)
    with (Ctx.append (context r2) (js_str o)) in A, B.
  apply (wn_same (context r)); congruence.
Qed.

Lemma context_chain_invariant_aux (f inp : string) (r : Reader) :
  Reachable f inp r -> WellNested (context r).
Proof.
  induction 1 as [|r r' _ IH Hs].
  - now apply WN_root.
  - now apply (step_wn r).
Qed.

(** After any number of rounds the contexts alternate as the
    constructors chain them: the root without a parent at the bottom, a
    stylesheet region in the root or in a host expression, a host
    expression in a stylesheet region. *)
Theorem context_chain_invariant (f inp : string) (r : Reader) :
  Reachable f inp r -> WellNested (context r).
Proof. apply context_chain_invariant_aux. Qed.

Lemma context_chain_invariant_witness :
  WellNested
    (mkContext JsContext
       (Some (mkContext HssContext
                (Some (mkContext RootContext None "" 1 0)) "a" 1 0))
       "" 1 0).
Proof.
  apply (context_chain_invariant "f" "<<a[b"
           (mkReader "f" "b" 1
              (mkContext JsContext
                 (Some (mkContext HssContext
                          (Some (mkContext RootContext None "" 1 0))
                          "a" 1 0))
                 "" 1 0))).
  eapply Reach_step; [eapply Reach_step; [eapply Reach_step;
    [apply Reach_start | reflexivity] | reflexivity] | reflexivity].
Defined.

(** ** What [transpile] can throw *)

Lemma STRING_loop_throw (f : string) (t : ascii) :
  forall n inp str ln e,
  String.length inp <= n ->
  Scan.STRING_loop f t inp str ln = Throw e ->
  exists l msg,
    e = Reader.errorAt f l msg /\ ln <= l <= ln + countNewlines inp.
Proof.
  induction n as [|n IH]; intros inp str ln e Hn H;
    destruct inp as [|c inp]; cbn [Scan.STRING_loop] in H;
    simpl in Hn; try lia.
  - inversion H. exists ln, "Unexpected end of file". simpl. split; [auto|lia].
  - inversion H. exists ln, "Unexpected end of file". simpl. split; [auto|lia].
  - assert (Hb : forall k, k <= Reader.bump c k)
      by (intros k; unfold Reader.bump; destruct (c =? newline)%char; lia).
    assert (Hrec : forall inp' str' ln',
      String.length inp' <= n ->
      ln <= ln' -> ln' + countNewlines inp' <= ln + countNewlines (String c inp) ->
      Scan.STRING_loop f t inp' str' ln' = Throw e ->
      exists l msg,
        e = Reader.errorAt f l msg /\
        ln <= l <= ln + countNewlines (String c inp)).
    { intros inp' str' ln' L1 L2 L3 H'.
      destruct (IH _ _ _ _ L1 H') as [l [msg [E B]]].
      exists l, msg. split; [assumption|lia]. }
    destruct (c =? t)%char; [discriminate|].
    destruct (c =? backslash)%char eqn:Ecb.
    + assert (Hc : (c =? newline)%char = false).
      { apply Ascii.eqb_eq in Ecb. now subst c. }
      destruct inp as [|d inp].
      * cbn [Scan.STRING_loop] in H. inversion H.
        exists ln, "Unexpected end of file". simpl. split; [auto|].
        pose proof (Hb 0). lia.
      * apply Hrec in H; [assumption | simpl in Hn; lia | |].
        -- unfold Reader.bump. destruct (d =? newline)%char; lia.
        -- simpl. unfold Reader.bump. rewrite Hc.
           destruct (d =? newline)%char; lia.
    + destruct (c =? newline)%char eqn:Enl.
      * destruct (negb (t =? backtick)%char).
        -- inversion H. exists ln, "Unexpected multi-line string".
           split; [auto|]. lia.
        -- apply Hrec in H; [assumption | lia | lia |].
           simpl. unfold Reader.bump. rewrite Enl. lia.
      * apply Hrec in H; [assumption | lia | lia |].
        simpl. unfold Reader.bump. rewrite Enl. lia.
Qed.

Lemma step_throw (r : Reader) (e : Exn) :
  step r = Throw e -> WellNested (context r) ->
  exists l msg,
    e = Reader.errorAt (filename r) l msg /\
    line r <= l <= line r + countNewlines (input r).
Proof.
  unfold step. destruct (Reader.peek r) as [c|]; [|discriminate].
  destruct (quoteRegex c).
  { unfold Scan.STRING, Scan.readString.
    destruct r as [f inp l ctx]. destruct inp as [|q inp];
      [discriminate|].
    cbn [Reader.next input line set_cursor filename context].
    destruct (Scan.STRING_loop f q inp _ _) as [[[tok rest] ln]|e0] eqn:E;
      [discriminate|].
    intros H _. inversion H; subst e0.
    apply (STRING_loop_throw f q _ _ _ _ _ (le_n _)) in E.
    destruct E as [l' [msg [E B]]]. exists l', msg. split; [assumption|].
    simpl. unfold Reader.bump in *. destruct (q =? newline)%char; lia. }
  destruct (c =? "/")%char; [discriminate|].
  destruct (whitespaceRegex c); [discriminate|].
  pose proof (childContextStart_ctx r) as C1.
  destruct (Ctx.childContextStart r) as [started r1]. simpl in C1.
  destruct started; [discriminate|].
  pose proof (contextEnd_ctx r1) as [C2 _].
  destruct (Ctx.contextEnd r1) as [ended r2]. simpl in C2.
  destruct ended; [|destruct (Reader.next r2); discriminate].
  destruct (C2 eq_refl) as [E Hk]. rewrite C1 in *.
  unfold endContext. rewrite E. intros H W. exfalso.
  inversion W as [c0 Hk0 Hp0 | c0 p0 Hk0 Hp0 Hpk Hw
                 | c0 p0 Hk0 Hp0 Hpk Hw]; subst c0;
    [contradiction | rewrite Hp0 in H; discriminate
     | rewrite Hp0 in H; discriminate].
Qed.

Lemma loop_throw (f inp : string) (n : nat) : forall r e,
  Reachable f inp r -> String.length (input r) <= n ->
  loop n r = Throw e ->
  exists l msg,
    e = Reader.errorAt f l msg /\ 1 <= l <= 1 + countNewlines inp.
Proof.
  induction n as [|n IH]; intros r e Hr Hn H; simpl in H.
  - assert (Hp : Reader.peek r = None) by (apply peek_None_length; lia).
    rewrite Hp in H. discriminate.
  - destruct (Reader.peek r) eqn:Hp; [|discriminate].
    destruct (step r) as [r1|e1] eqn:Hs; simpl in H.
    + apply (IH r1 e); [now apply (Reach_step _ _ r) | | assumption].
      apply step_consumes in Hs; [lia|congruence].
    + inversion H; subst e1.
      apply step_throw in Hs; [|now apply (context_chain_invariant_aux f inp)].
      destruct Hs as [l [msg [E B]]].
      apply reachable_advances in Hr.
      destruct Hr as [F [consumed [I L]]]. simpl in F, I, L.
      exists l, msg. rewrite F in E. split; [assumption|].
      rewrite I, countNewlines_app. lia.
Qed.

(** Whatever [transpile] throws is the [SyntaxError] of [error()]: its
    message starts with the file name and a line of the file, between 1
    and one more than the number of line breaks of the input.  Reading
    the parent of the root, a [TypeError], never happens. *)
Theorem transpile_throws_syntax_error (f inp : string) (e : Exn) :
  transpile f inp = Throw e ->
  exists l msg,
    e = SyntaxError ("Hss Error in " ++ f ++ " on line " ++ string_of_nat l
                     ++ String newline msg)
    /\ 1 <= l <= 1 + countNewlines inp.
Proof.
  unfold transpile. destruct (run (create f inp)) as [r|e0] eqn:Hr; simpl.
  - apply (loop_reachable f inp _ _ _ (Reach_start f inp)) in Hr.
    destruct Hr as [Hr He].
    destruct (line_counter_aux f inp r Hr) as [F L].
    unfold finish. destruct (kind (context r)); [discriminate| |];
      intros H; inversion H; unfold Reader.error, Reader.errorAt;
      rewrite F, (L He); eexists _, _; (split; [reflexivity|lia]).
  - intros H. inversion H; subst e0.
    apply (loop_throw f inp _ _ _ (Reach_start f inp) (le_n _)) in Hr.
    exact Hr.
Qed.

Lemma transpile_throws_syntax_error_witness :
  exists l msg,
    Reader.errorAt "f" 2 "Unexpected multi-line string" =
    SyntaxError ("Hss Error in " ++ "f" ++ " on line " ++ string_of_nat l
                 ++ String newline msg)
    /\ 1 <= l <= 1 + countNewlines (String newline ("'a" ++ String newline "b'")).
Proof.
  apply (transpile_throws_syntax_error "f"
           (String newline ("'a" ++ String newline "b'"))).
  reflexivity.
Defined.

(** ** Whitespace inside a region *)

Lemma quote_cases (q : ascii) :
  quoteRegex q = true -> q = squote \/ q = dquote \/ q = backtick.
Proof.
  unfold quoteRegex. intros H.
  apply orb_true_iff in H. destruct H as [H|H];
    [apply orb_true_iff in H; destruct H as [H|H]|];
    apply Ascii.eqb_eq in H; auto.
Qed.

Lemma quote_not_space (q : ascii) :
  quoteRegex q = true -> whitespaceRegex q = false.
Proof.
  intros H. destruct (quote_cases q H) as [E|[E|E]]; subst q; reflexivity.
Qed.

Lemma space_not_quote (c : ascii) :
  whitespaceRegex c = true ->
  quoteRegex c = false /\ (c =? "/")%char = false /\
  (c =? "[")%char = false.
Proof.
  intros H. repeat split.
  - destruct (quoteRegex c) eqn:E; [|reflexivity].
    apply quote_not_space in E. congruence.
  - destruct (c =? "/")%char eqn:E; [|reflexivity].
    apply Ascii.eqb_eq in E. subst c. discriminate H.
  - destruct (c =? "[")%char eqn:E; [|reflexivity].
    apply Ascii.eqb_eq in E. subst c. discriminate H.
Qed.

Lemma slice_m1_snoc (s : string) (c : ascii) :
  slice_m1 (s ++ String c "") = String c "".
Proof.
  induction s as [|d s IH]; simpl; [reflexivity|].
  rewrite IH. now destruct s.
Qed.

Lemma slice_m1_app (x a : string) :
  a <> "" -> slice_m1 (x ++ a) = slice_m1 a.
Proof.
  intros Ha. induction x as [|d x IH]; simpl; [reflexivity|].
  rewrite IH. destruct (x ++ a) eqn:E; [|reflexivity].
  destruct x; simpl in E; [now elim Ha | discriminate].
Qed.

Lemma slice_m1_plain (a : string) :
  plain a = true -> (slice_m1 a =? " ") = false.
Proof.
  induction a as [|c a IH]; [reflexivity|].
  simpl. intros H. apply andb_prop in H. destruct H as [Hc Ha].
  destruct a as [|d a]; [|now apply IH].
  apply plainChar_facts in Hc. destruct Hc as [_ [_ [Hc _]]].
  simpl. destruct (c =? " ")%char eqn:E; [|reflexivity].
  apply Ascii.eqb_eq in E. subst c. discriminate Hc.
Qed.

(** One whitespace character in a region: a space is appended unless the
    content ends with one. *)
Lemma step_ws_child (f : string) (c : ascii) (rest : string) (l : nat)
      (k : ContextClass) (p : option Context) (ct : string) (sl ic : nat) :
  whitespaceRegex c = true -> k <> RootContext ->
  step (mkReader f (String c rest) l (mkContext k p ct sl ic)) =
  Ok (mkReader f rest (Reader.bump c l)
        (mkContext k p (if slice_m1 ct =? " " then ct else ct ++ " ")
                   sl ic)).
Proof.
  intros Hc Hk. destruct (space_not_quote c Hc) as [H1 [H2 _]].
  unfold step. cbn [Reader.peek input]. rewrite H1, H2, Hc.
  unfold Scan.WHITESPACE, Ctx.add, Ctx.ChildContext_WHITESPACE.
  cbn [Reader.next input line context set_cursor filename kind content
       set_context js_str].
  destruct k; [now elim Hk| |];
    destruct (slice_m1 ct =? " "); reflexivity.
Qed.

(** A run of whitespace in a region collapses to one space. *)
Lemma run_ws_child (f : string) (ws : string) :
  all whitespaceRegex ws = true ->
  forall rest l k p ct sl ic, k <> RootContext ->
  run (mkReader f (ws ++ rest) l (mkContext k p ct sl ic)) =
  run (mkReader f rest (l + countNewlines ws)
         (mkContext k p (collapsed ct ws) sl ic)).
Proof.
  induction ws as [|c ws IH]; intros Hw rest l k p ct sl ic Hk.
  - simpl. now rewrite Nat.add_0_r.
  - simpl in Hw. apply andb_prop in Hw. destruct Hw as [Hc Hw].
    cbn [append]. rewrite run_step by discriminate.
    rewrite step_ws_child by assumption. cbn [bind].
    rewrite IH by assumption. cbn [countNewlines collapsed].
    rewrite bump_plus. f_equal. f_equal. f_equal.
    destruct ws as [|d ws]; [reflexivity|]. cbn [collapsed].
    destruct (slice_m1 ct =? " ") eqn:E; [now rewrite E|].
    now rewrite slice_m1_snoc.
Qed.

Lemma trimEnd_spaces (t : string) :
  all whitespaceRegex t = true -> trimEnd t = "".
Proof.
  induction t as [|c t IH]; simpl; [reflexivity|].
  intros H. apply andb_prop in H. destruct H as [Hc Ht].
  now rewrite (IH Ht), Hc.
Qed.

Lemma trimEnd_app_spaces (s t : string) :
  all whitespaceRegex t = true -> trimEnd (s ++ t) = trimEnd s.
Proof.
  intros Ht. induction s as [|c s IH]; simpl.
  - now apply trimEnd_spaces.
  - now rewrite IH.
Qed.

Lemma trimStart_plain (a rest : string) :
  plain a = true -> a <> "" -> trimStart (a ++ rest) = a ++ rest.
Proof.
  intros Ha Hne. destruct a as [|c a]; [now elim Hne|].
  simpl in *. apply andb_prop in Ha. destruct Ha as [Hc _].
  apply plainChar_facts in Hc. destruct Hc as [_ [_ [Hc _]]].
  now rewrite Hc.
Qed.

Lemma collapsed_cases (ct ws : string) :
  collapsed ct ws = ct \/ collapsed ct ws = ct ++ " ".
Proof.
  unfold collapsed. destruct ws; [auto|].
  destruct (slice_m1 ct =? " "); auto.
Qed.

(** In a stylesheet region whitespace before the text and after it is
    dropped and whitespace between two words becomes one space, whatever
    it is made of. *)
Theorem region_whitespace_collapses (f a b w1 w2 w3 : string) :
  plain a = true -> plain b = true -> a <> "" -> b <> "" ->
  all whitespaceRegex w1 = true -> all whitespaceRegex w2 = true ->
  all whitespaceRegex w3 = true -> w2 <> "" ->
  transpile f ("<<" ++ w1 ++ a ++ w2 ++ b ++ w3 ++ ">>") =
  Ok ("sheath.css.evaluate('" ++ a ++ " " ++ b ++ "')").
Proof.
  intros Ha Hb Hane Hbne H1 H2 H3 H2ne. unfold transpile, create.
  rewrite run_open_hss by discriminate.
  rewrite run_ws_child by (assumption || discriminate).
  rewrite run_plain by assumption.
  rewrite run_ws_child by (assumption || discriminate).
  rewrite run_plain by assumption.
  rewrite run_ws_child by (assumption || discriminate).
  change ">>" with (">>" ++ "").
  rewrite run_close_hss, save_root.
  rewrite run_done by reflexivity.
  cbn [bind finish context kind Ctx.toString content].
  set (s1 := collapsed "" w1).
  assert (E2 : collapsed (s1 ++ a) w2 = (s1 ++ a) ++ " ").
  { unfold collapsed. destruct w2; [now elim H2ne|].
    now rewrite (slice_m1_app s1 a Hane), (slice_m1_plain a Ha). }
  rewrite E2.
  assert (Hs1 : all whitespaceRegex s1 = true /\
                trimStart (s1 ++ a ++ " " ++ b) = a ++ " " ++ b).
  { unfold s1, collapsed. destruct w1; simpl.
    - split; [reflexivity|]. now apply trimStart_plain.
    - split; [reflexivity|]. now apply trimStart_plain. }
  destruct Hs1 as [_ Hs1].
  assert (Hmid : trimEnd (a ++ " " ++ b) = a ++ " " ++ b).
  { replace (a ++ " " ++ b) with ((a ++ " ") ++ b)
      by (now rewrite app_assoc).
    apply trimEnd_app; [assumption|].
    apply trimEnd_nonspace. now apply plain_nonspace. }
  assert (Htrim : trim (collapsed (((s1 ++ a) ++ " ") ++ b) w3) =
                  a ++ " " ++ b).
  { unfold trim.
    destruct (collapsed_cases (((s1 ++ a) ++ " ") ++ b) w3) as [E|E];
      rewrite E.
    - replace (((s1 ++ a) ++ " ") ++ b) with (s1 ++ a ++ " " ++ b)
        by (now rewrite !app_assoc).
      now rewrite Hs1.
    - replace ((((s1 ++ a) ++ " ") ++ b) ++ " ")
        with (s1 ++ (a ++ " " ++ b) ++ " ")
        by (now rewrite !app_assoc).
      assert (Hst : trimStart (s1 ++ (a ++ " " ++ b) ++ " ") =
                    (a ++ " " ++ b) ++ " ").
      { unfold s1, collapsed. destruct w1; simpl;
          rewrite !app_assoc; now apply trimStart_plain. }
      rewrite Hst, trimEnd_app_spaces by reflexivity. exact Hmid. }
  rewrite Htrim. norm_app. reflexivity.
Qed.

Lemma region_whitespace_collapses_witness :
  transpile "f" ("<<  color:" ++ String newline "   red  >>") =
  Ok "sheath.css.evaluate('color: red')".
Proof.
  apply (region_whitespace_collapses "f" "color:" "red" "  "
           (String newline "   ") "  "); reflexivity || discriminate.
Defined.

(** ** Comments and string literals inside a region *)

Lemma all_app_plain (a b : string) :
  plain a = true -> plain b = true -> plain (a ++ b) = true.
Proof. intros Ha Hb. unfold plain in *. now rewrite all_app, Ha, Hb. Qed.

(** A closed block comment in a region is skipped. *)
Lemma run_child_blockComment (f : string) (body rest : string) (l : nat)
      (k : ContextClass) (p : option Context) (ct : string) (sl ic : nat) :
  k <> RootContext -> occurs "*/" body = false ->
  run (mkReader f ("/*" ++ body ++ "*/" ++ rest) l (mkContext k p ct sl ic)) =
  run (mkReader f rest (l + countNewlines body) (mkContext k p ct sl ic)).
Proof.
  intros Hk Hb. rewrite run_step by discriminate.
  assert (H : step (mkReader f ("/*" ++ body ++ "*/" ++ rest) l
                             (mkContext k p ct sl ic)) =
              Ok (mkReader f rest (l + countNewlines body)
                    (mkContext k p ct sl ic))).
  { unfold step, Scan.COMMENT, Scan.blockComment, Reader.peekN.
    change ("/*" ++ body ++ "*/" ++ rest)
      with (String "/" (String "*" (body ++ "*/" ++ rest))).
    cbn [Reader.peek Reader.next input slice0 line context
         set_cursor filename js_plus js_str].
    change (quoteRegex "/") with false. change ("/" =? "/")%char with true.
    change ("/*" =? "//") with false. change ("/*" =? "/*") with true.
    cbv iota.
    change (Reader.bump "*" (Reader.bump "/" l)) with l.
    rewrite blockComment_loop_body by assumption.
    destruct k; [now elim Hk| |]; reflexivity. }
  now rewrite H.
Qed.

(** A literal between double quotes or backticks is appended to a
    stylesheet region as it is. *)
Lemma run_hss_string (f : string) (q : ascii) (body rest : string) (l : nat)
      (p : option Context) (ct : string) (sl ic : nat) :
  quoteRegex q = true -> (q =? squote)%char = false ->
  all (bodyChar q) body = true ->
  run (mkReader f (String q (body ++ String q rest)) l
                (mkContext HssContext p ct sl ic)) =
  run (mkReader f rest (l + countNewlines body)
         (mkContext HssContext p (ct ++ String q (body ++ String q ""))
                    sl ic)).
Proof.
  intros Hq Hs Hb. rewrite run_step by discriminate.
  unfold step, Scan.STRING. cbn [Reader.peek input]. rewrite Hq.
  rewrite readString_closed by assumption.
  unfold Ctx.add, Ctx.HssContext_STRING. cbn [context kind]. rewrite Hs.
  reflexivity.
Qed.

(** Inside a stylesheet region a block comment and a string literal are
    taken as one token each: a block comment leaves no trace in the
    output, a literal between double quotes or backticks is copied, and
    the delimiters of regions that occur inside either of them neither
    open nor close anything. *)
Theorem region_tokens_are_inert
    (f a b cbody sbody : string) (q : ascii) :
  plain a = true -> plain b = true ->
  occurs "*/" cbody = false ->
  quoteRegex q = true -> (q =? squote)%char = false ->
  all (bodyChar q) sbody = true ->
  transpile f ("<<" ++ a ++ "/*" ++ cbody ++ "*/" ++ b ++ ">>") =
    Ok ("sheath.css.evaluate('" ++ a ++ b ++ "')")
  /\ transpile f ("<<" ++ a ++ String q (sbody ++ String q (b ++ ">>"))) =
    Ok ("sheath.css.evaluate('" ++ a ++ String q (sbody ++ String q b)
        ++ "')").
Proof.
  intros Ha Hb Hc Hq Hs Hsb. unfold transpile, create. split.
  - rewrite run_open_hss by discriminate.
    rewrite run_plain by assumption.
    rewrite run_child_blockComment by (assumption || discriminate).
    rewrite run_plain by assumption.
    change ">>" with (">>" ++ "").
    rewrite run_close_hss, save_root.
    rewrite run_done by reflexivity.
    cbn [bind finish context kind Ctx.toString content append].
    rewrite trim_plain by (now apply all_app_plain).
    norm_app. reflexivity.
  - rewrite run_open_hss by discriminate.
    rewrite run_plain by assumption.
    rewrite run_hss_string by assumption.
    rewrite run_plain by assumption.
    change ">>" with (">>" ++ "").
    rewrite run_close_hss, save_root.
    rewrite run_done by reflexivity.
    cbn [bind finish context kind Ctx.toString content].
    assert (Ht : trim ((("" ++ a) ++ String q (sbody ++ String q "")) ++ b) =
                 a ++ String q (sbody ++ String q b)).
    { replace ((("" ++ a) ++ String q (sbody ++ String q "")) ++ b)
        with ((a ++ String q sbody) ++ String q b)
        by (norm_app; reflexivity).
      unfold trim.
      assert (Hst : trimStart ((a ++ String q sbody) ++ String q b) =
                    (a ++ String q sbody) ++ String q b).
      { destruct a as [|c a]; simpl.
        - now rewrite (quote_not_space q Hq).
        - simpl in Ha. apply andb_prop in Ha. destruct Ha as [Hc0 _].
          apply plainChar_facts in Hc0. destruct Hc0 as [_ [_ [Hc0 _]]].
          now rewrite Hc0. }
      rewrite Hst, trimEnd_app.
      - norm_app. reflexivity.
      - discriminate.
      - apply trimEnd_nonspace. simpl.
        rewrite (quote_not_space q Hq). now apply plain_nonspace. }
    rewrite Ht. norm_app. reflexivity.
Qed.

Lemma region_tokens_are_inert_witness :
  transpile "f" "<<a/* >> [ << */b>>" = Ok "sheath.css.evaluate('ab')"
  /\ transpile "f" "<<a`>> [x] <<`b>>" =
     Ok "sheath.css.evaluate('a`>> [x] <<`b')".
Proof.
  apply (region_tokens_are_inert "f" "a" "b" " >> [ << " ">> [x] <<"
           backtick); reflexivity.
Defined.

(** ** A block comment that is never closed *)

Lemma blockComment_loop_unclosed (body : string) :
  occurs "*/" body = false ->
  forall acc ln,
  Scan.blockComment_loop body acc ln =
  (acc ++ body, "", ln + countNewlines body).
Proof.
  induction body as [|c body IH]; intros Hb acc ln.
  - simpl. now rewrite app_empty_r, Nat.add_0_r.
  - cbn [occurs] in Hb. apply orb_false_iff in Hb. destruct Hb as [Hc Hb].
    cbn [Scan.blockComment_loop countNewlines].
    unfold startsWith in Hc. cbn [String.length] in Hc. rewrite Hc.
    rewrite IH by assumption. rewrite app_assoc, <- bump_plus.
    reflexivity.
Qed.

(** At the root a block comment without its closing delimiter is no
    error: it runs to the end of the input, and the two [next()] calls
    that should read the delimiter return [undefined], whose sum is
    appended as the text [NaN]. *)
Theorem unclosed_block_comment_appends_NaN (f pre body : string) :
  plain pre = true -> occurs "*/" body = false ->
  transpile f (pre ++ "/*" ++ body) = Ok (pre ++ "/*" ++ body ++ "NaN").
Proof.
  intros Hp Hb. unfold transpile, create.
  rewrite run_plain by assumption.
  rewrite run_step by discriminate.
  assert (H : step (mkReader f ("/*" ++ body) 1
                      (mkContext RootContext None ("" ++ pre) 1 0)) =
              Ok (mkReader f "" (1 + countNewlines body)
                    (mkContext RootContext None
                       (("" ++ pre) ++ "/*" ++ body ++ "NaN") 1 0))).
  { unfold step, Scan.COMMENT, Scan.blockComment, Reader.peekN.
    change ("/*" ++ body) with (String "/" (String "*" body)).
    cbn [Reader.peek Reader.next input slice0 line context
         set_cursor filename js_plus js_str].
    change (quoteRegex "/") with false. change ("/" =? "/")%char with true.
    change ("/*" =? "//") with false. change ("/*" =? "/*") with true.
    cbv iota.
    change (Reader.bump "*" (Reader.bump "/" 1)) with 1.
    rewrite blockComment_loop_unclosed by assumption.
    cbn [Reader.next input line set_cursor filename context js_plus
         Ctx.add kind].
    unfold Ctx.append, set_content, set_context.
    cbn [kind content parentContext startingLine ignoreCount filename
         input line].
    now rewrite !app_assoc. }
  rewrite H. cbn [bind]. rewrite run_done by reflexivity.
  cbn [bind finish context kind Ctx.toString content append]. reflexivity.
Qed.

Lemma unclosed_block_comment_appends_NaN_witness :
  transpile "f" "a=1;/* note" = Ok "a=1;/* noteNaN".
Proof.
  apply (unclosed_block_comment_appends_NaN "f" "a=1;" " note"); reflexivity.
Defined.

(** ** Brackets and nesting in a host expression *)

(** An opening bracket in a host expression is text, and is counted. *)
Lemma run_js_open_bracket (f rest : string) (l : nat)
      (p : option Context) (ct : string) (sl ic : nat) :
  run (mkReader f ("[" ++ rest) l (mkContext JsContext p ct sl ic)) =
  run (mkReader f rest l (mkContext JsContext p (ct ++ "[") sl (S ic))).
Proof.
  rewrite run_step by discriminate.
  assert (H : step (mkReader f ("[" ++ rest) l
                             (mkContext JsContext p ct sl ic)) =
              Ok (mkReader f rest l
                    (mkContext JsContext p (ct ++ "[") sl (S ic))))
    by reflexivity.
  now rewrite H.
Qed.

(** A closing bracket that is counted is appended together with the
    character after it. *)
Lemma run_js_counted_bracket (f : string) (d : ascii) (rest : string)
      (l : nat) (p : option Context) (ct : string) (sl n : nat) :
  run (mkReader f (String "]" (String d rest)) l
                (mkContext JsContext p ct sl (S n))) =
  run (mkReader f rest (Reader.bump d l)
         (mkContext JsContext p (ct ++ String "]" (String d "")) sl
                    (if (d =? "[")%char then S n else n))).
Proof.
  rewrite run_step by discriminate.
  assert (H : step (mkReader f (String "]" (String d rest)) l
                             (mkContext JsContext p ct sl (S n))) =
              Ok (mkReader f rest (Reader.bump d l)
                    (mkContext JsContext p (ct ++ String "]" (String d ""))
                       sl (if (d =? "[")%char then S n else n)))).
  { unfold step. simpl.
    unfold Ctx.append, Ctx.beforeAdd, set_ignoreCount, set_content,
      set_context, set_cursor. simpl.
    rewrite Nat.sub_0_r.
    destruct (d =? "[")%char; simpl; rewrite app_assoc; reflexivity. }
  now rewrite H.
Qed.

(** A pair of brackets inside a host expression does not close it when
    a plain character follows the pair: the region closes at the bracket
    after it and the expression is passed on whole. *)
Theorem bracket_pair_inside_host_expression
    (f a b c : string) (d : ascii) :
  plain a = true -> plain b = true -> plain c = true ->
  plainChar d = true ->
  transpile f ("<<[" ++ a ++ "[" ++ b ++ "]" ++ String d c ++ "]>>") =
  Ok ("sheath.css.evaluate('' + sheath.css.jsExpr("
      ++ a ++ "[" ++ b ++ "]" ++ String d c ++ ") + '')").
Proof.
  intros Ha Hb Hc Hd. unfold transpile, create.
  change ("<<[" ++ a ++ "[" ++ b ++ "]" ++ String d c ++ "]>>")
    with ("<<" ++ "[" ++ a ++ "[" ++ b
          ++ String "]" (String d (c ++ "]" ++ ">>" ++ ""))).
  rewrite run_open_hss by discriminate.
  rewrite run_open_js by reflexivity.
  rewrite run_plain by assumption.
  rewrite run_js_open_bracket.
  rewrite run_plain by assumption.
  rewrite run_js_counted_bracket.
  destruct (plainChar_facts d Hd) as [_ [_ [_ [_ [_ [Hd1 _]]]]]].
  rewrite Hd1.
  rewrite run_plain by assumption.
  rewrite run_close_js, save_hss.
  rewrite run_close_hss, save_root.
  rewrite run_done by reflexivity.
  cbn [bind finish context kind Ctx.toString content].
  set (e := ((("" ++ a) ++ "[") ++ b) ++ String "]" (String d "")).
  assert (Ht : trim ("" ++ "' + sheath.css.jsExpr(" ++ (e ++ c) ++ ") + '")
               = "' + sheath.css.jsExpr(" ++ (e ++ c) ++ ") + '").
  { replace ("" ++ "' + sheath.css.jsExpr(" ++ (e ++ c) ++ ") + '")
      with ("" ++ String squote
                    ((" + sheath.css.jsExpr(" ++ (e ++ c) ++ ") + ")
                     ++ String squote ""))
      by (norm_app; reflexivity).
    rewrite trim_quoted by reflexivity. norm_app. reflexivity. }
  rewrite Ht. unfold e. norm_app. reflexivity.
Qed.

Lemma bracket_pair_inside_host_expression_witness :
  transpile "f" "<<[a[0].x]>>" =
  Ok "sheath.css.evaluate('' + sheath.css.jsExpr(a[0].x) + '')".
Proof.
  apply (bracket_pair_inside_host_expression "f" "a" "0" "x" "."%char);
    reflexivity.
Defined.

(** A stylesheet region nested in a host expression, to any depth. *)
Lemma run_nested (f : string) (n : nat) :
  forall rest l p ct sl ic,
  run (mkReader f (nestedInput n ++ rest) l (mkContext JsContext p ct sl ic)) =
  run (mkReader f rest l (mkContext JsContext p (ct ++ nestedExpr n) sl ic)).
Proof.
  induction n as [|n IH]; intros rest l p ct sl ic.
  - apply (run_plain f "x" eq_refl).
  - replace (nestedInput (S n) ++ rest)
      with ("<<" ++ "[" ++ nestedInput n ++ "]" ++ ">>" ++ rest)
      by (cbn [nestedInput]; norm_app; reflexivity).
    rewrite run_open_hss by discriminate.
    rewrite run_open_js by reflexivity.
    rewrite IH, run_close_js, save_hss, run_close_hss.
    assert (Ht : trim ("" ++ "' + sheath.css.jsExpr("
                       ++ ("" ++ nestedExpr n) ++ ") + '")
                 = "' + sheath.css.jsExpr(" ++ nestedExpr n ++ ") + '").
    { replace ("" ++ "' + sheath.css.jsExpr(" ++ ("" ++ nestedExpr n)
               ++ ") + '")
        with ("" ++ String squote
                      ((" + sheath.css.jsExpr(" ++ nestedExpr n ++ ") + ")
                       ++ String squote ""))
        by (norm_app; reflexivity).
      rewrite trim_quoted by reflexivity. norm_app. reflexivity. }
    rewrite Ht.
    change ("'" ++ ("' + sheath.css.jsExpr(" ++ nestedExpr n ++ ") + '")
            ++ "'")
      with (String squote (("' + sheath.css.jsExpr(" ++ nestedExpr n
                            ++ ") + '") ++ "'")).
    rewrite save_js. f_equal. f_equal. f_equal.
    cbn [nestedExpr]. norm_app. reflexivity.
Qed.

(** Regions nest to any depth ([<< css [js << css [js] >>] >>] and so
    on): [n + 1] stylesheet regions, each in the host expression of the
    one around it, transpile to one [evaluate] call at the root and
    [n + 1] nested [jsExpr] calls, each inner region being passed to the
    [jsExpr] around it as a string literal. *)
Theorem regions_nest_to_any_depth (f : string) (n : nat) :
  transpile f (nestedInput (S n)) =
  Ok ("sheath.css.evaluate(" ++ nestedExpr (S n) ++ ")").
Proof.
  unfold transpile, create.
  replace (nestedInput (S n))
    with ("<<" ++ "[" ++ nestedInput n ++ "]" ++ ">>" ++ "")
    by (cbn [nestedInput]; norm_app; reflexivity).
  rewrite run_open_hss by discriminate.
  rewrite run_open_js by reflexivity.
  rewrite run_nested, run_close_js, save_hss, run_close_hss, save_root.
  rewrite run_done by reflexivity.
  cbn [bind finish context kind Ctx.toString content].
  assert (Ht : trim ("" ++ "' + sheath.css.jsExpr("
                     ++ ("" ++ nestedExpr n) ++ ") + '")
               = "' + sheath.css.jsExpr(" ++ nestedExpr n ++ ") + '").
  { replace ("" ++ "' + sheath.css.jsExpr(" ++ ("" ++ nestedExpr n)
             ++ ") + '")
      with ("" ++ String squote
                    ((" + sheath.css.jsExpr(" ++ nestedExpr n ++ ") + ")
                     ++ String squote ""))
      by (norm_app; reflexivity).
    rewrite trim_quoted by reflexivity. norm_app. reflexivity. }
  rewrite Ht. cbn [nestedExpr]. norm_app. reflexivity.
Qed.

(** ** A single-quoted literal in a stylesheet region *)

Lemma STRING_loop_shape (f : string) (t : ascii) :
  forall n inp str ln tok rest ln',
  String.length inp <= n ->
  Scan.STRING_loop f t inp str ln = Ok (tok, rest, ln') ->
  exists mid, tok = str ++ mid ++ String t "".
Proof.
  induction n as [|n IH]; intros inp str ln tok rest ln' Hn H;
    destruct inp as [|c inp]; cbn [Scan.STRING_loop] in H;
    try discriminate; simpl in Hn; [lia|].
  assert (Hrec : forall inp' d ln0,
    String.length inp' <= n ->
    Scan.STRING_loop f t inp' (str ++ String d "") ln0 = Ok (tok, rest, ln') ->
    exists mid, tok = str ++ mid ++ String t "").
  { intros inp' d ln0 L H'. destruct (IH _ _ _ _ _ _ L H') as [mid E].
    exists (String d mid). rewrite E. now rewrite app_assoc. }
  destruct (c =? t)%char eqn:Ect.
  { inversion H; subst. exists "". apply Ascii.eqb_eq in Ect. now subst c. }
  destruct (c =? backslash)%char.
  { destruct inp as [|d inp]; [discriminate|].
    apply Hrec in H; [assumption | simpl in Hn; lia]. }
  destruct (c =? newline)%char.
  - destruct (negb (t =? backtick)%char); [discriminate|].
    apply Hrec in H; [assumption | lia].
  - apply Hrec in H; [assumption | lia].
Qed.

(** Whenever a single-quoted literal is read in a stylesheet region, with
    or without escapes in it, the token is the delimiter, a text and the
    delimiter again, and what is appended is that text between two
    backslash-escaped quotes, every quote in it (one that was escaped in
    the input) written as three backslashes and a quote.  The token is
    the text consumed without the backslashes of its escapes. *)
Theorem hss_single_quoted_literal
    (f : string) (l : nat) (c : Context) (sinp tok rest : string) (ln : nat) :
  kind c = HssContext ->
  Scan.readString (mkReader f (String squote sinp) l c) = Ok (tok, rest, ln) ->
  exists mid consumed,
    tok = String squote (mid ++ String squote "")
    /\ String squote sinp = consumed ++ rest
    /\ tok = dropEscapes consumed
    /\ step (mkReader f (String squote sinp) l c) =
       Ok (mkReader f rest ln
             (mkContext HssContext (parentContext c)
                (content c ++ "\'" ++ replaceAll squote "\\\'" mid ++ "\'")
                (startingLine c) (ignoreCount c))).
Proof.
  intros Hk Hr. pose proof Hr as Hr0. unfold Scan.readString in Hr.
  cbn [Reader.next input line set_cursor filename context] in Hr.
  destruct (STRING_loop_shape f squote _ _ _ _ _ _ _ (le_n _) Hr)
    as [mid Em].
  destruct (STRING_loop_spec f squote _ _ _ _ _ _ _ (le_n _) Hr)
    as [cons [E1 [_ E2]]].
  exists mid, (String squote cons). repeat split.
  - exact Em.
  - simpl. now rewrite E1.
  - rewrite (E2 eq_refl). reflexivity.
  - unfold step, Scan.STRING. cbn [Reader.peek input].
    change (quoteRegex squote) with true. cbv iota. rewrite Hr0.
    unfold Ctx.add, Ctx.HssContext_STRING, Ctx.append.
    cbn [context]. rewrite Hk, Em.
    cbn [append]. rewrite Ascii.eqb_refl, slice_1_m1_quoted.
    unfold set_content, set_context, set_cursor. simpl. now rewrite Hk.
Qed.

Lemma hss_single_quoted_literal_witness :
  exists mid consumed,
    "'a'b'" = String squote (mid ++ String squote "")
    /\ "'a\'b' c" = consumed ++ " c"
    /\ "'a'b'" = dropEscapes consumed
    /\ step (mkReader "f" "'a\'b' c" 1 (mkContext HssContext None "x" 1 0)) =
       Ok (mkReader "f" " c" 1
             (mkContext HssContext None
                ("x" ++ "\'" ++ replaceAll squote "\\\'" mid ++ "\'") 1 0)).
Proof.
  apply (hss_single_quoted_literal "f" 1 (mkContext HssContext None "x" 1 0)
           "a\'b' c" "'a'b'" " c" 1); reflexivity.
Defined.

(** ** Text in front of the rest of the input *)

Lemma prepend_fields (pfx : string) (c : Context) :
  kind (prependRoot pfx c) = kind c /\
  startingLine (prependRoot pfx c) = startingLine c /\
  ignoreCount (prependRoot pfx c) = ignoreCount c.
Proof. destruct c as [k [p|] ct sl ic]; simpl; auto. Qed.

Lemma prepend_add (pfx : string) (c : Context) (s : string)
      (t : option Token.type) :
  WellNested c ->
  Ctx.add (prependRoot pfx c) s t = prependRoot pfx (Ctx.add c s t).
Proof.
  intros W. destruct c as [k [p|] ct sl ic].
  - unfold Ctx.add, Ctx.ChildContext_WHITESPACE, Ctx.HssContext_STRING,
      Ctx.append, Ctx.beforeAdd.
    destruct t as [[| |]|]; destruct k; simpl;
      repeat match goal with
      | |- context [if ?b then _ else _] => destruct b; simpl
      | |- context [match ?x with "" => _ | String _ _ => _ end] =>
          destruct x; simpl
      end; reflexivity.
  - inversion W as [c0 Hk Hp | c0 p0 Hk Hp Hpk Hw | c0 p0 Hk Hp Hpk Hw];
      subst c0; simpl in *; try discriminate. subst k.
    unfold Ctx.add, Ctx.append, set_content.
    destruct t as [[| |]|]; simpl; now rewrite app_assoc.
Qed.

Lemma prepend_set_ignoreCount (pfx : string) (c : Context) (n : nat) :
  set_ignoreCount (prependRoot pfx c) n =
  prependRoot pfx (set_ignoreCount c n).
Proof. destruct c as [k [p|] ct sl ic]; reflexivity. Qed.

Lemma prepend_toString (pfx : string) (c : Context) :
  WellNested c -> kind c <> RootContext ->
  Ctx.toString (prependRoot pfx c) = Ctx.toString c.
Proof.
  intros W Hk. destruct c as [k [p|] ct sl ic]; [reflexivity|].
  inversion W as [c0 Hk0 Hp | c0 p0 Hk0 Hp Hpk Hw | c0 p0 Hk0 Hp Hpk Hw];
    subst c0; simpl in *; try discriminate. now elim Hk.
Qed.

Lemma prepend_save (pfx : string) (p : Context) (s : string) :
  WellNested p ->
  Ctx.saveChildContent (prependRoot pfx p) s =
  prependRoot pfx (Ctx.saveChildContent p s).
Proof.
  intros W. unfold Ctx.saveChildContent.
  destruct (prepend_fields pfx p) as [K _]. rewrite K.
  destruct (kind p); now apply prepend_add.
Qed.

Lemma next_set_context (r : Reader) (c : Context) :
  Reader.next (set_context r c) =
  (fst (Reader.next r), set_context (snd (Reader.next r)) c).
Proof. destruct r as [f inp l c0]. destruct inp; reflexivity. Qed.

Lemma discard_set_context (n : nat) : forall r c,
  Reader.discard n (set_context r c) = set_context (Reader.discard n r) c.
Proof.
  induction n as [|n IH]; intros r c; simpl; [reflexivity|].
  rewrite next_set_context. cbn [snd]. apply IH.
Qed.

(** The scanner reads the same token whatever the current context is. *)
Lemma COMMENT_param (r : Reader) (c : Context) :
  exists str t,
    Scan.COMMENT r = set_context (Scan.COMMENT r) (Ctx.add (context r) str t)
    /\ Scan.COMMENT (set_context r c) =
       set_context (Scan.COMMENT r) (Ctx.add c str t).
Proof.
  unfold Scan.COMMENT.
  change (Reader.peekN 2 (set_context r c)) with (Reader.peekN 2 r).
  destruct (Reader.peekN 2 r =? "//").
  { unfold Scan.lineComment.
    change (input (set_context r c)) with (input r).
    destruct (Scan.lineComment_loop (input r) "") as [str rest].
    exists str, (Some Token.COMMENT). split; reflexivity. }
  destruct (Reader.peekN 2 r =? "/*").
  { unfold Scan.blockComment. rewrite next_set_context.
    pose proof (next_ctx r) as C1. destruct (Reader.next r) as [o1 r1].
    cbn [fst snd] in *. rewrite next_set_context.
    pose proof (next_ctx r1) as C2. destruct (Reader.next r1) as [o2 r2].
    cbn [fst snd] in *.
    change (input (set_context r2 c)) with (input r2).
    change (line (set_context r2 c)) with (line r2).
    destruct (Scan.blockComment_loop _ _ _) as [[str rest] ln].
    change (set_cursor (set_context r2 c) rest ln)
      with (set_context (set_cursor r2 rest ln) c).
    rewrite next_set_context.
    pose proof (next_ctx (set_cursor r2 rest ln)) as C3.
    destruct (Reader.next (set_cursor r2 rest ln)) as [o3 r4].
    cbn [fst snd] in *. rewrite next_set_context.
    pose proof (next_ctx r4) as C4. destruct (Reader.next r4) as [o4 r5].
    cbn [fst snd context set_context set_cursor] in *.
    exists (str ++ js_plus o3 o4), (Some Token.COMMENT).
    rewrite C4, C3, C2, C1. split; reflexivity. }
  rewrite next_set_context.
  pose proof (next_ctx r) as C1. destruct (Reader.next r) as [o1 r1].
  cbn [fst snd context set_context] in *.
  exists (js_str o1), None. rewrite C1. split; reflexivity.
Qed.

Lemma readString_set_context (r : Reader) (c : Context) :
  Scan.readString (set_context r c) = Scan.readString r.
Proof. destruct r as [f inp l c0]. destruct inp; reflexivity. Qed.

Lemma childContextStart_frame (r : Reader) (c : Context) :
  kind c = kind (context r) ->
  Ctx.childContextStart (set_context r c) =
  (fst (Ctx.childContextStart r), set_context (snd (Ctx.childContextStart r)) c).
Proof.
  intros K. unfold Ctx.childContextStart.
  change (context (set_context r c)) with c. rewrite K.
  change (Reader.peekN 2 (set_context r c)) with (Reader.peekN 2 r).
  change (Reader.peek (set_context r c)) with (Reader.peek r).
  destruct (kind (context r));
    repeat match goal with
    | |- context [if ?b then _ else _] => destruct b
    | |- context [match ?o with Some _ => _ | None => _ end] => destruct o
    end; cbn [fst snd]; rewrite ?discard_set_context; reflexivity.
Qed.

Lemma contextEnd_frame (pfx : string) (r : Reader) :
  WellNested (context r) ->
  Ctx.contextEnd (set_context r (prependRoot pfx (context r))) =
  (fst (Ctx.contextEnd r),
   set_context (snd (Ctx.contextEnd r))
               (prependRoot pfx (context (snd (Ctx.contextEnd r))))).
Proof.
  intros W. unfold Ctx.contextEnd, Ctx.endDelimiter.
  change (context (set_context r (prependRoot pfx (context r))))
    with (prependRoot pfx (context r)).
  destruct (prepend_fields pfx (context r)) as [K [_ I]]. rewrite K, I.
  change (Reader.peekN 2 (set_context r (prependRoot pfx (context r))))
    with (Reader.peekN 2 r).
  change (Reader.peek (set_context r (prependRoot pfx (context r))))
    with (Reader.peek r).
  destruct (kind (context r)).
  - reflexivity.
  - destruct (Reader.peekN 2 r =? ">>"); cbn [fst snd];
      rewrite ?discard_set_context, ?discard_ctx; reflexivity.
  - destruct (js_str (Reader.peek r) =? "]"); [|reflexivity].
    destruct (negb (ignoreCount (context r) =? 0)%nat).
    + rewrite next_set_context. destruct (Reader.next r) as [o r1].
      cbn [fst snd context set_context].
      rewrite prepend_add by assumption.
      destruct (prepend_fields pfx (Ctx.add (context r) (js_str o) None))
        as [_ [_ I2]].
      rewrite I2, prepend_set_ignoreCount. reflexivity.
    + cbn [fst snd]. rewrite discard_set_context, discard_ctx. reflexivity.
Qed.

(** A round does not look at the content of the root: with a text in
    front of that content it does the same, and the text stays in front. *)
Lemma step_frame (pfx : string) (r : Reader) :
  WellNested (context r) ->
  step (set_context r (prependRoot pfx (context r))) =
  match step r with
  | Ok r' => Ok (set_context r' (prependRoot pfx (context r')))
  | Throw e => Throw e
  end.
Proof.
  intros W. unfold step.
  change (Reader.peek (set_context r (prependRoot pfx (context r))))
    with (Reader.peek r).
  destruct (Reader.peek r) as [c|]; [|reflexivity].
  destruct (quoteRegex c).
  { unfold Scan.STRING. rewrite readString_set_context.
    destruct (Scan.readString r) as [[[tok rest] ln]|e]; [|reflexivity].
    cbn [context set_context set_cursor].
    now rewrite prepend_add. }
  destruct (c =? "/")%char.
  { destruct (COMMENT_param r (prependRoot pfx (context r)))
      as [str [t [E1 E2]]].
    rewrite E2, E1. cbn [context set_context].
    now rewrite prepend_add. }
  destruct (whitespaceRegex c).
  { unfold Scan.WHITESPACE. rewrite next_set_context.
    pose proof (next_ctx r) as C. destruct (Reader.next r) as [o r1].
    cbn [fst snd context set_context] in *. rewrite C.
    now rewrite prepend_add. }
  destruct (prepend_fields pfx (context r)) as [K _].
  rewrite (childContextStart_frame r _ K).
  pose proof (childContextStart_ctx r) as C1.
  destruct (Ctx.childContextStart r) as [started r1].
  cbn [fst snd] in *.
  destruct started.
  { unfold newContext, Ctx.newChildContext.
    cbn [context set_context line]. rewrite K, C1.
    destruct (kind (context r)); reflexivity. }
  rewrite <- C1 in W |- *.
  rewrite (contextEnd_frame pfx r1 W).
  pose proof (contextEnd_ctx r1) as [C2 [C3 C4]].
  destruct (Ctx.contextEnd r1) as [ended r2]. cbn [fst snd] in *.
  destruct ended.
  { destruct (C2 eq_refl) as [E Hk]. unfold endContext.
    cbn [context set_context]. rewrite E.
    inversion W as [c0 Hk0 Hp0 | c0 p0 Hk0 Hp0 Hpk Hw
                   | c0 p0 Hk0 Hp0 Hpk Hw]; subst c0;
      [contradiction| |];
      (destruct (context r1) as [k [p|] ct sl ic] eqn:Ec;
       simpl in Hp0; [|discriminate]; inversion Hp0; subst p0;
       cbn [prependRoot parentContext];
       unfold Ctx.childContextEnd;
       change (mkContext k (Some (prependRoot pfx p)) ct sl ic)
         with (prependRoot pfx (mkContext k (Some p) ct sl ic));
       rewrite prepend_toString by (assumption || (simpl; congruence));
       rewrite prepend_save by assumption; reflexivity). }
  rewrite next_set_context.
  pose proof (next_ctx r2) as C5. destruct (Reader.next r2) as [o r3].
  cbn [fst snd context set_context] in *. rewrite C5.
  rewrite prepend_add; [reflexivity|].
  apply (wn_same (context r1)); assumption.
Qed.

Lemma loop_frame (pfx : string) (n : nat) : forall r,
  WellNested (context r) ->
  loop n (set_context r (prependRoot pfx (context r))) =
  match loop n r with
  | Ok r' => Ok (set_context r' (prependRoot pfx (context r')))
  | Throw e => Throw e
  end.
Proof.
  induction n as [|n IH]; intros r W; simpl;
    change (Reader.peek (set_context r (prependRoot pfx (context r))))
      with (Reader.peek r);
    destruct (Reader.peek r); try reflexivity.
  rewrite step_frame by assumption.
  destruct (step r) as [r1|e] eqn:Hs; [|reflexivity]. simpl.
  apply IH. now apply (step_wn r).
Qed.

Lemma finish_frame (pfx : string) (r : Reader) :
  WellNested (context r) ->
  finish (set_context r (prependRoot pfx (context r))) =
  match finish r with
  | Ok out => Ok (pfx ++ out)
  | Throw e => Throw e
  end.
Proof.
  intros W. unfold finish, Reader.error, Ctx.endDelimiter, Ctx.name,
    Ctx.toString.
  cbn [context set_context filename line].
  destruct (prepend_fields pfx (context r)) as [K [S _]]. rewrite K, S.
  destruct (kind (context r)) eqn:Hk; try reflexivity.
  destruct (context r) as [k [p|] ct sl ic]; [|reflexivity].
  inversion W as [c0 Hk0 Hp | c0 p0 Hk0 Hp Hpk Hw | c0 p0 Hk0 Hp Hpk Hw];
    subst c0; simpl in *; congruence.
Qed.

(** A root-level stylesheet region is replaced where it stands by an
    [evaluate] call on its text, the plain text in front of it is kept,
    and what follows is transpiled exactly as it would be on its own: its
    output is appended, or its error is thrown unchanged. *)
Theorem root_region_replaced_in_place (f pre s rest : string) :
  plain pre = true -> plain s = true ->
  transpile f (pre ++ "<<" ++ s ++ ">>" ++ rest) =
  match transpile f rest with
  | Ok out => Ok (pre ++ "sheath.css.evaluate('" ++ s ++ "')" ++ out)
  | Throw e => Throw e
  end.
Proof.
  intros Hp Hs. unfold transpile at 1. unfold create.
  rewrite run_plain by assumption.
  rewrite run_open_hss by discriminate.
  rewrite run_plain by assumption.
  rewrite run_close_hss, save_root.
  cbn [append]. rewrite (trim_plain s Hs).
  match goal with
  | |- context [mkContext RootContext None ?ct 1 0] => set (P := ct)
  end.
  assert (E : mkReader f rest 1 (mkContext RootContext None P 1 0) =
              set_context (create f rest)
                (prependRoot P (context (create f rest)))).
  { unfold create, set_context. simpl. now rewrite app_empty_r. }
  rewrite E. unfold run at 1.
  change (input (set_context (create f rest)
                   (prependRoot P (context (create f rest)))))
    with (input (create f rest)).
  rewrite loop_frame by (now apply WN_root).
  unfold transpile. unfold run.
  destruct (loop (String.length (input (create f rest))) (create f rest))
    as [r|e] eqn:Hl; [|reflexivity].
  cbn [bind].
  apply (loop_reachable f rest _ _ _ (Reach_start f rest)) in Hl.
  destruct Hl as [Hr _].
  rewrite finish_frame by (now apply (context_chain_invariant_aux f rest)).
  destruct (finish r); [|reflexivity].
  unfold P. norm_app. reflexivity.
Qed.

Lemma root_region_replaced_in_place_witness :
  transpile "f" "a=<<b>>;c='<<';<<d>>" =
  Ok "a=sheath.css.evaluate('b');c='<<';sheath.css.evaluate('d')".
Proof.
  apply (root_region_replaced_in_place "f" "a=" "b" ";c='<<';<<d>>");
    reflexivity.
Defined.

(** ** Termination *)

(** The loop of [transpile()] ends on every input: a round that finds a
    character consumes at least one, so there are at most as many rounds
    as the input has characters, and the round bound of the model is
    never used up. *)
Theorem driver_loop_terminates (r r' : Reader) :
  Reader.peek r <> None -> step r = Ok r' ->
  String.length (input r') < String.length (input r)
  /\ (forall n, String.length (input r) <= n ->
        loop n r <> Throw FuelExhausted /\ loop n r = run r)
  /\ (forall f inp, transpile f inp <> Throw FuelExhausted).
Proof.
  intros Hp Hs. split; [now apply step_consumes|]. split.
  - intros n Hn. split; [now apply loop_not_exhausted|].
    unfold run. apply loop_fuel; lia.
  - intros f inp. unfold transpile.
    destruct (run (create f inp)) as [r0|e] eqn:Hr; simpl.
    + unfold finish. destruct (kind (context r0)); discriminate.
    + intros H. inversion H. subst e.
      now apply (loop_not_exhausted _ _ (le_n _)) in Hr.
Qed.

Lemma driver_loop_terminates_witness :
  String.length (input (mkReader "f" " d" 1
                          (mkContext RootContext None "/* a//b */" 1 0)))
  < String.length (input (create "f" "/* a//b */ d")).
Proof.
  apply (driver_loop_terminates (create "f" "/* a//b */ d"));
    [discriminate | reflexivity].
Defined.

(** ** Line comments and stray delimiters *)

(** A line comment in a region is skipped up to the end of its line. *)
Lemma run_child_lineComment (f : string) (body rest : string) (l : nat)
      (k : ContextClass) (p : option Context) (ct : string) (sl ic : nat) :
  k <> RootContext ->
  all (fun c => negb (c =? newline)%char) body = true ->
  all (fun c => (c =? newline)%char) (slice0 1 rest) = true ->
  run (mkReader f ("//" ++ body ++ rest) l (mkContext k p ct sl ic)) =
  run (mkReader f rest l (mkContext k p ct sl ic)).
Proof.
  intros Hk Hb Hr. rewrite run_step by discriminate.
  assert (H : step (mkReader f ("//" ++ body ++ rest) l
                             (mkContext k p ct sl ic)) =
              Ok (mkReader f rest l (mkContext k p ct sl ic))).
  { unfold step, Scan.COMMENT, Scan.lineComment, Reader.peekN.
    cbn [Reader.peek input append slice0 line context].
    change (quoteRegex "/") with false. change ("/" =? "/")%char with true.
    change ("//" =? "//") with true. cbv iota.
    change (String "/" (String "/" (body ++ rest)))
      with (("//" ++ body) ++ rest).
    rewrite lineComment_loop_body by assumption.
    destruct k; [now elim Hk| |]; reflexivity. }
  now rewrite H.
Qed.

(** A line comment in a stylesheet region is left out of the output, and
    the line break that ends it counts as whitespace.  The comment runs
    to the end of its line whatever it holds: when the line is the last
    one, a closing delimiter after the [//] is part of the comment and
    the region is reported as not closed. *)
Theorem region_line_comment (f a b cbody : string) :
  plain a = true -> plain b = true -> a <> "" -> b <> "" ->
  all (fun c => negb (c =? newline)%char) cbody = true ->
  transpile f ("<<" ++ a ++ "//" ++ cbody ++ String newline (b ++ ">>")) =
    Ok ("sheath.css.evaluate('" ++ a ++ " " ++ b ++ "')")
  /\ transpile f ("<<" ++ a ++ "//" ++ cbody) =
    Throw (SyntaxError
      ("Hss Error in " ++ f ++ " on line 1" ++ String newline
       ("Unexpected end of file. It looks like you forgot the closing "
        ++ String dquote ">>" ++ String dquote
        " of the Hss expression beginning on line 1."))).
Proof.
  intros Ha Hb Hane Hbne Hc. unfold transpile, create. split.
  - rewrite run_open_hss by discriminate.
    rewrite run_plain by assumption.
    rewrite run_child_lineComment by (assumption || discriminate || reflexivity).
    change (String newline (b ++ ">>"))
      with (String newline "" ++ b ++ ">>").
    rewrite run_ws_child by (reflexivity || discriminate).
    rewrite run_plain by assumption.
    change ">>" with (">>" ++ "").
    rewrite run_close_hss, save_root.
    rewrite run_done by reflexivity.
    cbn [bind finish context kind Ctx.toString content].
    assert (E : collapsed ("" ++ a) (String newline "") = a ++ " ").
    { unfold collapsed. cbn [append].
      now rewrite (slice_m1_plain a Ha). }
    rewrite E.
    assert (Ht : trim ((a ++ " ") ++ b) = a ++ " " ++ b).
    { unfold trim. rewrite app_assoc.
      rewrite trimStart_plain by assumption.
      replace (a ++ " " ++ b) with ((a ++ " ") ++ b)
        by (now rewrite app_assoc).
      rewrite trimEnd_app; [now rewrite app_assoc | assumption |].
      apply trimEnd_nonspace. now apply plain_nonspace. }
    rewrite Ht. norm_app. reflexivity.
  - rewrite run_open_hss by discriminate.
    rewrite run_plain by assumption.
    rewrite <- (app_empty_r cbody).
    rewrite run_child_lineComment by (assumption || discriminate || reflexivity).
    rewrite run_done by reflexivity. reflexivity.
Qed.

Lemma region_line_comment_witness :
  transpile "f" ("<<url(http://x.png)>>" ++ String newline "b>>") =
    Ok "sheath.css.evaluate('url(http: b')"
  /\ transpile "f" "<<url(http://x.png)>>" =
    Throw (SyntaxError
      ("Hss Error in f on line 1" ++ String newline
       ("Unexpected end of file. It looks like you forgot the closing "
        ++ String dquote ">>" ++ String dquote
        " of the Hss expression beginning on line 1."))).
Proof.
  apply (region_line_comment "f" "url(http:" "b" "x.png)>>");
    reflexivity || discriminate.
Defined.

(** A closing delimiter where no region of its kind is open is text, not
    an error: a closing bracket in a stylesheet region, and a [>>] in a
    host expression, are copied like any other character. *)
Theorem stray_closing_delimiter_is_text (f a b : string) :
  plain a = true -> plain b = true ->
  transpile f ("<<" ++ a ++ "]" ++ b ++ ">>") =
    Ok ("sheath.css.evaluate('" ++ a ++ "]" ++ b ++ "')")
  /\ transpile f ("<<[" ++ a ++ ">>" ++ b ++ "]>>") =
    Ok ("sheath.css.evaluate('' + sheath.css.jsExpr(" ++ a ++ ">>" ++ b
        ++ ") + '')").
Proof.
  intros Ha Hb. unfold transpile, create.
  assert (Hbr : forall rest l p ct sl ic,
    run (mkReader f ("]" ++ rest) l (mkContext HssContext p ct sl ic)) =
    run (mkReader f rest l (mkContext HssContext p (ct ++ "]") sl ic))).
  { intros. rewrite run_step by discriminate.
    assert (H : step (mkReader f ("]" ++ rest) l
                               (mkContext HssContext p ct sl ic)) =
                Ok (mkReader f rest l
                      (mkContext HssContext p (ct ++ "]") sl ic)))
      by reflexivity.
    now rewrite H. }
  assert (Hgt : forall rest l p ct sl ic,
    run (mkReader f (">" ++ rest) l (mkContext JsContext p ct sl ic)) =
    run (mkReader f rest l (mkContext JsContext p (ct ++ ">") sl ic))).
  { intros. rewrite run_step by discriminate.
    assert (H : step (mkReader f (">" ++ rest) l
                               (mkContext JsContext p ct sl ic)) =
                Ok (mkReader f rest l
                      (mkContext JsContext p (ct ++ ">") sl ic)))
      by reflexivity.
    now rewrite H. }
  split.
  - rewrite run_open_hss by discriminate.
    rewrite run_plain by assumption.
    rewrite Hbr. rewrite run_plain by assumption.
    change ">>" with (">>" ++ "").
    rewrite run_close_hss, save_root.
    rewrite run_done by reflexivity.
    cbn [bind finish context kind Ctx.toString content].
    assert (Ht : trim ((("" ++ a) ++ "]") ++ b) = a ++ "]" ++ b).
    { replace ((("" ++ a) ++ "]") ++ b) with (a ++ String "]" b)
        by (norm_app; reflexivity).
      unfold trim.
      assert (Hst : trimStart (a ++ String "]" b) = a ++ String "]" b).
      { destruct a as [|c a]; [reflexivity|].
        now apply trimStart_plain. }
      rewrite Hst. apply trimEnd_app; [discriminate|].
      apply trimEnd_nonspace. simpl. now apply plain_nonspace. }
    rewrite Ht. norm_app. reflexivity.
  - change ("<<[" ++ a ++ ">>" ++ b ++ "]>>")
      with ("<<" ++ "[" ++ a ++ ">" ++ ">" ++ b ++ "]" ++ ">>" ++ "").
    rewrite run_open_hss by discriminate.
    rewrite run_open_js by reflexivity.
    rewrite run_plain by assumption.
    rewrite !Hgt. rewrite run_plain by assumption.
    rewrite run_close_js, save_hss, run_close_hss, save_root.
    rewrite run_done by reflexivity.
    cbn [bind finish context kind Ctx.toString content].
    set (e := (((("" ++ a) ++ ">") ++ ">") ++ b)).
    assert (Ht : trim ("" ++ "' + sheath.css.jsExpr(" ++ e ++ ") + '")
                 = "' + sheath.css.jsExpr(" ++ e ++ ") + '").
    { replace ("" ++ "' + sheath.css.jsExpr(" ++ e ++ ") + '")
        with ("" ++ String squote
                      ((" + sheath.css.jsExpr(" ++ e ++ ") + ")
                       ++ String squote ""))
        by (norm_app; reflexivity).
      rewrite trim_quoted by reflexivity. norm_app. reflexivity. }
    rewrite Ht. unfold e. norm_app. reflexivity.
Qed.

Lemma stray_closing_delimiter_is_text_witness :
  transpile "f" "<<a]b>>" = Ok "sheath.css.evaluate('a]b')"
  /\ transpile "f" "<<[a>>b]>>" =
     Ok "sheath.css.evaluate('' + sheath.css.jsExpr(a>>b) + '')".
Proof.
  apply (stray_closing_delimiter_is_text "f" "a" "b"); reflexivity.
Defined.

(** In a host expression whitespace collapses to single spaces as in a
    stylesheet region, but nothing is trimmed: whitespace after the
    opening bracket and before the closing one stays as one space each. *)
Theorem host_expression_whitespace (f a b w1 w2 w3 : string) :
  plain a = true -> plain b = true -> a <> "" -> b <> "" ->
  all whitespaceRegex w1 = true -> all whitespaceRegex w2 = true ->
  all whitespaceRegex w3 = true -> w1 <> "" -> w2 <> "" -> w3 <> "" ->
  transpile f ("<<[" ++ w1 ++ a ++ w2 ++ b ++ w3 ++ "]>>") =
  Ok ("sheath.css.evaluate('' + sheath.css.jsExpr( " ++ a ++ " " ++ b
      ++ " ) + '')").
Proof.
  intros Ha Hb Hane Hbne H1 H2 H3 N1 N2 N3. unfold transpile, create.
  change ("<<[" ++ w1 ++ a ++ w2 ++ b ++ w3 ++ "]>>")
    with ("<<" ++ "[" ++ w1 ++ a ++ w2 ++ b ++ w3 ++ "]" ++ ">>" ++ "").
  rewrite run_open_hss by discriminate.
  rewrite run_open_js by reflexivity.
  rewrite run_ws_child by (assumption || discriminate).
  rewrite run_plain by assumption.
  rewrite run_ws_child by (assumption || discriminate).
  rewrite run_plain by assumption.
  rewrite run_ws_child by (assumption || discriminate).
  rewrite run_close_js, save_hss, run_close_hss, save_root.
  rewrite run_done by reflexivity.
  cbn [bind finish context kind Ctx.toString content].
  assert (E1 : collapsed "" w1 = " ") by (destruct w1; [now elim N1|reflexivity]).
  rewrite E1.
  assert (E2 : collapsed (" " ++ a) w2 = (" " ++ a) ++ " ").
  { unfold collapsed. destruct w2; [now elim N2|].
    now rewrite (slice_m1_app " " a Hane), (slice_m1_plain a Ha). }
  rewrite E2.
  assert (E3 : collapsed (((" " ++ a) ++ " ") ++ b) w3 =
               (((" " ++ a) ++ " ") ++ b) ++ " ").
  { unfold collapsed. destruct w3; [now elim N3|].
    now rewrite (slice_m1_app ((" " ++ a) ++ " ") b Hbne),
      (slice_m1_plain b Hb). }
  rewrite E3.
  set (e := (((" " ++ a) ++ " ") ++ b) ++ " ").
  assert (Ht : trim ("" ++ "' + sheath.css.jsExpr(" ++ e ++ ") + '")
               = "' + sheath.css.jsExpr(" ++ e ++ ") + '").
  { replace ("" ++ "' + sheath.css.jsExpr(" ++ e ++ ") + '")
      with ("" ++ String squote
                    ((" + sheath.css.jsExpr(" ++ e ++ ") + ")
                     ++ String squote ""))
      by (norm_app; reflexivity).
    rewrite trim_quoted by reflexivity. norm_app. reflexivity. }
  rewrite Ht. unfold e. norm_app. reflexivity.
Qed.

Lemma host_expression_whitespace_witness :
  transpile "f" ("<<[  a" ++ String newline "+  ]>>") =
  Ok "sheath.css.evaluate('' + sheath.css.jsExpr( a + ) + '')".
Proof.
  apply (host_expression_whitespace "f" "a" "+" "  " (String newline "")
           "  "); reflexivity || discriminate.
Defined.
